(** * bidsSynB0: grouping, validation and sidecar reconciliation

    A shallow embedding of [scripts/bidsSynB0.py].  The script is a
    sequence of top-level statements; it is modelled here as pure
    functions on Python values (strings, JSON values, dictionaries) plus a
    small state-and-exception monad for the part that touches the dataset
    on disk, prints, and calls external tools. *)

From Stdlib Require Import Ascii String QArith.
From stdpp Require Import gmap strings list fin_maps.

#[local] Set Warnings "-clear-no-such-hyp".

Open Scope string_scope.
Open Scope list_scope.

(** ** Python string operations used by the script *)

Module PyStr.

(** [s.endswith(suf)] *)
Fixpoint endswith (s suf : string) : bool :=
  String.eqb s suf ||
  match s with
  | EmptyString => false
  | String _ s' => endswith s' suf
  end.

(** [s.replace(old, new)] for a non-empty [old]: every non-overlapping
    occurrence, scanning from the left.  [skip] counts the characters of
    a match that are still to be dropped. *)
Fixpoint replace_from (old new s : string) (skip : nat) : string :=
  match s with
  | EmptyString => EmptyString
  | String c s' =>
      match skip with
      | S k => replace_from old new s' k
      | O =>
          if String.prefix old s
          then new ++ replace_from old new s' (String.length old - 1)
          else String c (replace_from old new s' 0)
      end
  end.

Definition replace (s old new : string) : string := replace_from old new s 0.

(** [s[-1]]: the last character, [None] where Python raises IndexError. *)
Fixpoint last_char (s : string) : option ascii :=
  match s with
  | EmptyString => None
  | String c EmptyString => Some c
  | String _ s' => last_char s'
  end.

(** [s[:-1]] *)
Fixpoint drop_last (s : string) : string :=
  match s with
  | EmptyString => EmptyString
  | String _ EmptyString => EmptyString
  | String c s' => String c (drop_last s')
  end.

(** [s[0]] on a string: a one-character string. *)
Definition first_char (s : string) : option string :=
  match s with
  | EmptyString => None
  | String c _ => Some (String c EmptyString)
  end.

(** [os.path.join(a, b)] of posixpath. *)
Definition path_join2 (a b : string) : string :=
  if String.prefix "/" b then b
  else if String.eqb a "" || endswith a "/" then a ++ b
  else a ++ "/" ++ b.

Definition path_join (a : string) (ps : list string) : string :=
  fold_left path_join2 ps a.

End PyStr.

(** ** Image records and the acquisition grouper *)

(** A file handle of the dataset index.  [acquisition] is the value of
    [file.get_entities()['acquisition']]: [None] is Python's [None]. *)
Record BIDSFile := mkFile {
  path : string;
  filename : string;
  acquisition : option string
}.

(** The dictionary [grouped_images]: keys in insertion order. *)
Definition groups := list (string * list BIDSFile).

(** [acq_label], after [if not acq_label: acq_label = 'noacq'].  Both [None]
    and the empty string are falsy. *)
Definition acq_label (file : BIDSFile) : string :=
  match acquisition file with
  | None => "noacq"
  | Some s => if String.eqb s "" then "noacq" else s
  end.

(** [if k not in d: d[k] = []] followed by [d[k].append(file)]. *)
Fixpoint append_to_group (k : string) (file : BIDSFile) (d : groups) : groups :=
  match d with
  | [] => [(k, [file])]
  | (k', members) :: d' =>
      if String.eqb k' k then (k', members ++ [file]) :: d'
      else (k', members) :: append_to_group k file d'
  end.

Definition get_dwi_images (dwi_images : list BIDSFile) : groups :=
  fold_left (fun d file => append_to_group (acq_label file) file d) dwi_images [].

(** [{'combined': [item for sublist in dwi_groups.values() for item in sublist]}] *)
Definition combine_all (dwi_groups : groups) : groups :=
  [("combined", concat (map snd dwi_groups))].

(** Lines 148-153: grouping always runs; the flag rewrites its result. *)
Definition select_dwi_groups (combine_all_dwis : bool) (dwi_images : list BIDSFile) : groups :=
  let dwi_groups := get_dwi_images dwi_images in
  if combine_all_dwis then combine_all dwi_groups else dwi_groups.

Definition members_with (k : string) (l : list BIDSFile) : list BIDSFile :=
  List.filter (fun f => String.eqb (acq_label f) k) l.

(** ** JSON values and sidecar files *)

(** Values produced by [json.load].  Numbers are the rationals their
    literals denote. *)
#[local] Unset Elimination Schemes.
Inductive json :=
| JNull
| JBool (b : bool)
| JNum (q : Q)
| JStr (s : string)
| JArr (l : list json)
| JObj (l : list (string * json)).
#[local] Set Elimination Schemes.

(** A top-level JSON object, as the script reads and rewrites it
    ([json.dump] with [sort_keys=True]: key order is not observable). *)
Abbreviation sidecar := (gmap string json).

Fixpoint assoc (k : string) (l : list (string * json)) : option json :=
  match l with
  | [] => None
  | (k', v) :: l' => if String.eqb k' k then Some v else assoc k l'
  end.

Definition bool_num (b : bool) : Q := if b then 1%Q else 0%Q.

(** Python's [==] on loaded JSON values. *)
Fixpoint py_eq (a b : json) {struct a} : bool :=
  match a, b with
  | JNull, JNull => true
  | JBool x, JBool y => Bool.eqb x y
  | JBool x, JNum q => Qeq_bool (bool_num x) q
  | JNum q, JBool x => Qeq_bool q (bool_num x)
  | JNum p, JNum q => Qeq_bool p q
  | JStr s, JStr t => String.eqb s t
  | JArr l, JArr m =>
      (fix go (l m : list json) : bool :=
         match l, m with
         | [], [] => true
         | x :: l', y :: m' => py_eq x y && go l' m'
         | _, _ => false
         end) l m
  | JObj l, JObj m =>
      Nat.eqb (length l) (length m) &&
      (fix go (l : list (string * json)) : bool :=
         match l with
         | [] => true
         | (k, v) :: l' =>
             match assoc k m with
             | Some w => py_eq v w
             | None => false
             end && go l'
         end) l
  | _, _ => false
  end.

(** What is stored under a path of the dataset. *)
Inductive file :=
| FSidecar (o : sidecar)   (* a JSON document whose top level is an object *)
| FJsonOther               (* a JSON document of any other shape *)
| FData.                   (* not JSON: an image volume, an empty file *)

(** ** Exceptions, events, state *)

Inductive exn :=
| SystemExit (code : Z)
| KeyError (k : string)
| IndexError
| TypeError
| AttributeError
| NameError (name : string)
| ValueError
| FileNotFoundError (p : string)
| JSONDecodeError
| RuntimeError (msg : string)
| Exception (msg : string).

(** What the script does to the outside, in order.  Scratch files under
    the working directory are events; files of the dataset are in [fs]. *)
Inductive event :=
| Print (s : string)
| PrintGroups (g : groups)                (* "DWI groups: " + str(dwi_groups) *)
| Subprocess (cmd : list string)          (* subprocess.run *)
| MakeDirs (d : string)                   (* os.makedirs of a scratch directory *)
| EnsureDir (d : string)                  (* if not os.path.exists(d): os.makedirs(d) *)
| StageCopy (src dst : string)            (* shutil.copy into the scratch area *)
| WriteAcqparams (p : string) (vec : list Z) (readout : json).

Record state := mkState {
  fs : gmap string file;        (* files of the dataset *)
  out : list event;             (* events so far, oldest first *)
  fmap_sidecar_bound : bool     (* the module-level names fmap_sidecar and
                                   fmap_sidecar_fh are bound (lines 359-360) *)
}.

Inductive outcome (A : Type) :=
| Ret (a : A)
| Raise (e : exn).
Arguments Ret {A} a.
Arguments Raise {A} e.

Definition M (A : Type) : Type := state -> outcome A * state.

Module PyMonad.

Definition ret {A} (a : A) : M A := fun st => (Ret a, st).

Definition bind {A B} (m : M A) (k : A -> M B) : M B :=
  fun st =>
    match m st with
    | (Ret a, st') => k a st'
    | (Raise e, st') => (Raise e, st')
    end.

Definition raise {A} (e : exn) : M A := fun st => (Raise e, st).

Definition emit (e : event) : M unit :=
  fun st => (Ret tt, mkState (fs st) (out st ++ [e]) (fmap_sidecar_bound st)).

Definition get_fs : M (gmap string file) := fun st => (Ret (fs st), st).

Definition put_file (p : string) (f : file) : M unit :=
  fun st => (Ret tt, mkState (<[p := f]> (fs st)) (out st) (fmap_sidecar_bound st)).

Definition get_bound : M bool := fun st => (Ret (fmap_sidecar_bound st), st).

Definition set_bound : M unit :=
  fun st => (Ret tt, mkState (fs st) (out st) true).

(** [for x in l: acc = body(x, acc)] *)
Fixpoint foldM {A B} (body : A -> B -> M B) (l : list A) (acc : B) : M B :=
  match l with
  | [] => ret acc
  | x :: l' => bind (body x acc) (foldM body l')
  end.

(** [for x in l: body(x)] *)
Fixpoint forM {A} (body : A -> M unit) (l : list A) : M unit :=
  match l with
  | [] => ret tt
  | x :: l' => bind (body x) (fun _ => forM body l')
  end.

End PyMonad.
Import PyMonad.

Declare Scope py_scope.
Delimit Scope py_scope with py.
Notation "x <- m ;; k" := (bind m (fun x => k))
  (at level 100, m at next level, right associativity) : py_scope.
Notation "m ;; k" := (bind m (fun _ => k))
  (at level 100, right associativity) : py_scope.
Open Scope py_scope.

Definition print (s : string) : M unit := emit (Print s).

(** [json.load(open(p))] *)
Inductive loaded :=
| LObj (o : sidecar)
| LOther.

Definition json_load (p : string) : M loaded :=
  files <- get_fs ;;
  match files !! p with
  | None => raise (FileNotFoundError p)
  | Some (FSidecar o) => ret (LObj o)
  | Some FJsonOther => ret LOther
  | Some FData => raise JSONDecodeError
  end.

(** [d[k]] on a loaded document. *)
Definition getitem (d : loaded) (k : string) : M json :=
  match d with
  | LOther => raise TypeError
  | LObj o =>
      match o !! k with
      | Some v => ret v
      | None => raise (KeyError k)
      end
  end.

(** [d[k] = v] on a loaded document. *)
Definition setitem (d : loaded) (k : string) (v : json) : M loaded :=
  match d with
  | LOther => raise TypeError
  | LObj o => ret (LObj (<[k := v]> o))
  end.

(** ["..." + v]: only a [str] can be concatenated. *)
Definition as_str (v : json) : M string :=
  match v with
  | JStr s => ret s
  | _ => raise TypeError
  end.

(** [shutil.copy(src, dst)] between files of the dataset. *)
Definition copy_file (src dst : string) : M unit :=
  files <- get_fs ;;
  match files !! src with
  | None => raise (FileNotFoundError src)
  | Some f => put_file dst f
  end.

Definition lift {A} (r : outcome A) : M A :=
  match r with
  | Ret a => ret a
  | Raise e => raise e
  end.

(** ** Phase-encoding tables and the output name (lines 276-279, 338-345) *)

Definition phase_encode_vectors : gmap string (list Z) :=
  list_to_map [("i", [1; 0; 0]%Z); ("i-", [-1; 0; 0]%Z);
               ("j", [0; 1; 0]%Z); ("j-", [0; -1; 0]%Z);
               ("k", [0; 0; 1]%Z); ("k-", [0; 0; -1]%Z)].

Definition phase_encode_labels : gmap string string :=
  list_to_map [("i", "RL"); ("i-", "LR"); ("j", "PA"); ("j-", "AP")].

(** [d[k]] on a dictionary literal. *)
Definition lookup_or_KeyError {A} (d : gmap string A) (k : string) : outcome A :=
  match d !! k with
  | Some v => Ret v
  | None => Raise (KeyError k)
  end.

(** [pe_direction[:-1] if pe_direction[-1] == '-' else pe_direction + '-'] *)
Definition fmap_phase_encode_dir (pe_direction : string) : outcome string :=
  match PyStr.last_char pe_direction with
  | None => Raise IndexError
  | Some c =>
      if Ascii.eqb c "-" then Ret (PyStr.drop_last pe_direction)
      else Ret (pe_direction +:+ "-")
  end.

(** [phase_encode_labels[fmap_phase_encode_dir]] *)
Definition fmap_phase_encode_label (dir : string) : outcome string :=
  lookup_or_KeyError phase_encode_labels dir.

Definition fmap_file_name (participant_label session_label group label : string) : string :=
  if String.eqb group "noacq"
  then "sub-" +:+ participant_label +:+ "_ses-" +:+ session_label
       +:+ "_acq-synb0_dir-" +:+ label +:+ "_epi.nii.gz"
  else "sub-" +:+ participant_label +:+ "_ses-" +:+ session_label
       +:+ "_acq-" +:+ group +:+ "synb0_dir-" +:+ label +:+ "_epi.nii.gz".

Definition fmap_sidecar_file (name : string) : string :=
  PyStr.replace name ".nii.gz" ".json".

(** [file.path.replace('.nii.gz', '.json')] *)
Definition sidecar_path (file : BIDSFile) : string :=
  PyStr.replace (path file) ".nii.gz" ".json".

(** The placeholder constants of lines 365-366. *)
Definition fmap_total_readout_time : Q := 1 # 10000000.
Definition fmap_effective_echo_spacing : Q := 0.

Definition fmap_intended_files (session_label : string) (group_dwi_images : list BIDSFile)
  : list string :=
  map (fun file => PyStr.path_join ("ses-" +:+ session_label) ["dwi"; filename file])
      group_dwi_images.

(** Lines 362-366 on the loaded clone. *)
Definition edit_fmap_sidecar (session_label : string) (group_dwi_images : list BIDSFile)
    (dir : string) (o : sidecar) : sidecar :=
  <["EffectiveEchoSpacing" := JNum fmap_effective_echo_spacing]>
    (<["TotalReadoutTime" := JNum fmap_total_readout_time]>
       (<["PhaseEncodingDirection" := JStr dir]>
          (<["IntendedFor" := JArr (map JStr (fmap_intended_files session_label group_dwi_images))]> o))).

(** [sep.join(l)] *)
Fixpoint str_join (sep : string) (l : list string) : string :=
  match l with
  | [] => ""
  | [x] => x
  | x :: l' => x +:+ sep +:+ str_join sep l'
  end.

Definition has_slash (s : string) : bool :=
  existsb (fun c => Ascii.eqb c "/") (list_ascii_of_string s).

(** [os.path.basename(p)] *)
Fixpoint basename (p : string) : string :=
  match p with
  | EmptyString => EmptyString
  | String c p' =>
      if Ascii.eqb c "/" then basename p'
      else if has_slash p' then basename p' else p
  end.

Definition newline : string := String "010"%char EmptyString.

(** ** The command line and the outside world *)

(** Parsed arguments.  [num_threads] and [work_dir] only reach the
    subprocess environment and the name of the scratch directory. *)
Record Args := mkArgs {
  container : string;
  bids_dataset : string;
  participant_label : string;
  session_label : string;
  filter : option string;
  total_readout_time : option string;
  combine_all_dwis : bool;
  t1w_image_suffix : option string;
  t1w_mask_dataset : option string
}.

(** What the script observes of its collaborators: the dataset index, the
    directory listing, the scratch directory and the external tools. *)
Record World := mkWorld {
  dwi_images : list BIDSFile;          (* layout.get(..., suffix='dwi') *)
  t1w_layout : list string;            (* layout.get(..., suffix='T1w', return_type='file') *)
  listdir : string -> option (list string);
  working_dir : string;                (* tempfile.TemporaryDirectory(...).name *)
  realpath : string -> string;
  singularity_found : bool;            (* shutil.which('singularity') is not None *)
  produced : string -> bool            (* a scratch file an external tool was asked to
                                          write exists afterwards *)
}.

Section Script.

Variable args : Args.
Variable w : World.

Definition sub_dir : string := "sub-" +:+ participant_label args.
Definition ses_dir : string := "ses-" +:+ session_label args.

(** *** [bids_filter] (lines 21-41): [Path] and [loads] are never imported *)
Definition bids_filter (value : string) : M unit :=
  if String.eqb value "" then
    raise (Exception ("Unable to load BIDS filter file " +:+ value))
  else raise (NameError "Path").

(** *** [get_t1w_skull_stripped] (lines 61-86) *)

(** [v[0]] *)
Definition first_item (v : json) : outcome json :=
  match v with
  | JArr [] => Raise IndexError
  | JArr (x :: _) => Ret x
  | JStr s =>
      match PyStr.first_char s with
      | Some c => Ret (JStr c)
      | None => Raise IndexError
      end
  | JObj _ => Raise (KeyError "0")
  | _ => Raise TypeError
  end.

(** [v.endswith(suffix)] *)
Definition json_endswith (v : json) (suffix : string) : outcome bool :=
  match v with
  | JStr s => Ret (PyStr.endswith s suffix)
  | _ => Raise AttributeError
  end.

Definition mask_matches (mask_dir t1w_filename mask_sidecar : string) : M bool :=
  mask_json <- json_load (PyStr.path_join mask_dir [mask_sidecar]) ;;
  sources <- getitem mask_json "Sources" ;;
  src <- lift (first_item sources) ;;
  lift (json_endswith src t1w_filename).

(** The [for ... break] loop: the first matching sidecar. *)
Fixpoint find_t1w_mask (mask_dir t1w_filename : string) (mask_sidecars : list string)
  : M (option string) :=
  match mask_sidecars with
  | [] => ret None
  | mask_sidecar :: rest =>
      hit <- mask_matches mask_dir t1w_filename mask_sidecar ;;
      if hit : bool
      then ret (Some (PyStr.path_join mask_dir
                        [PyStr.replace mask_sidecar ".json" ".nii.gz"]))
      else find_t1w_mask mask_dir t1w_filename rest
  end.

Definition skull_stripped_file : string :=
  PyStr.path_join (working_dir w) ["t1w_skull_stripped.nii.gz"].

Definition get_t1w_skull_stripped (dataset t1w_path t1w_filename : string)
  : M (option string) :=
  let mask_dir := PyStr.path_join dataset [sub_dir; ses_dir; "anat"] in
  match listdir w mask_dir with
  | None => raise (FileNotFoundError mask_dir)
  | Some names =>
      let mask_sidecars := List.filter (fun f => PyStr.endswith f "_mask.json") names in
      t1w_mask <- find_t1w_mask mask_dir t1w_filename mask_sidecars ;;
      match t1w_mask with
      | Some mask =>
          print ("Using T1w mask " +:+ mask) ;;
          emit (Subprocess ["fslmaths"; t1w_path; "-mas"; mask; skull_stripped_file]) ;;
          ret (Some skull_stripped_file)
      | None => ret None
      end
  end.

(** Lines 194-206. *)
Definition resolve_brain_mask (t1w_path t1w_filename : string) : M (option string) :=
  t1w_skull_stripped_path <-
    match t1w_mask_dataset args with
    | Some mask_dataset => get_t1w_skull_stripped mask_dataset t1w_path t1w_filename
    | None => get_t1w_skull_stripped (bids_dataset args) t1w_path t1w_filename
    end ;;
  match t1w_skull_stripped_path with
  | Some _ => ret t1w_skull_stripped_path
  | None =>
      print ("No T1w brain mask found for subject " +:+ participant_label args
             +:+ " session " +:+ session_label args) ;;
      ret None
  end.

(** *** Phase-encoding check (lines 213-233) *)

(** One iteration; the accumulator is [(pe_direction, pe_direction_consistent)],
    [JNull] standing for Python's [None]. *)
Definition check_pe_direction (dwi_image : BIDSFile) (acc : json * bool) : M (json * bool) :=
  print ("Checking phase encoding direction for " +:+ filename dwi_image) ;;
  sc <- json_load (sidecar_path dwi_image) ;;
  match fst acc with
  | JNull =>
      v <- getitem sc "PhaseEncodingDirection" ;;
      ret (v, snd acc)
  | pe_direction =>
      v <- getitem sc "PhaseEncodingDirection" ;;
      if negb (py_eq pe_direction v) then
        print ("Phase encoding direction for " +:+ filename dwi_image
               +:+ " does not match previous images in group") ;;
        ret (pe_direction, false)
      else ret acc
  end.

Definition scan_pe_directions (group_dwi_images : list BIDSFile) : M (json * bool) :=
  foldM check_pe_direction group_dwi_images (JNull, true).

(** *** Readout time (lines 242-259): the value and [dwi_needs_total_readout_time] *)
Definition resolve_total_readout_time (dwi_ref : BIDSFile) : M (json * bool) :=
  sc <- json_load (sidecar_path dwi_ref) ;;
  match sc with
  | LOther => raise TypeError
  | LObj o =>
      match o !! "TotalReadoutTime" with
      | Some v => ret (v, false)
      | None =>
          print ("No total readout time in sidecar for " +:+ path dwi_ref) ;;
          match total_readout_time args with
          | None =>
              print "No total readout time in sidecar and no readout time specified on command line" ;;
              raise (SystemExit 1)
          | Some t => ret (JStr t, true)
          end
      end
  end.

(** *** Backfill (lines 261-269).  Each iteration opens the sidecar of
    [dwi_ref], not of [dwi_image]; [open(..., 'w')] empties the file, and
    the [json.dump] that follows names [fmap_sidecar] and
    [fmap_sidecar_fh], which are unbound or, after an earlier group was
    written, an old dictionary and a closed file. *)
Definition backfill_one (dwi_ref : BIDSFile) (readout : json) (dwi_image : BIDSFile) : M unit :=
  let sidecar_file := sidecar_path dwi_ref in
  t <- as_str readout ;;
  print ("Inserting total readout time from command line: " +:+ t) ;;
  sc <- json_load sidecar_file ;;
  _ <- setitem sc "TotalReadoutTime" readout ;;
  put_file sidecar_file FData ;;
  bound <- get_bound ;;
  if bound : bool then raise ValueError else raise (NameError "fmap_sidecar").

Definition backfill_total_readout_time (dwi_ref : BIDSFile) (readout : json)
    (group_dwi_images : list BIDSFile) : M unit :=
  forM (backfill_one dwi_ref readout) group_dwi_images.

(** *** Staging and the synthesis call (lines 281-334) *)

Definition tmp_input_dir (group : string) : string :=
  PyStr.path_join (working_dir w) [group +:+ "_synb0_input"].
Definition tmp_output_dir (group : string) : string :=
  PyStr.path_join (working_dir w) [group +:+ "_synb0_output"].
Definition tmp_singularity_dir (group : string) : string :=
  PyStr.path_join (working_dir w) [group +:+ "_synb0_tmpdir"].

Definition b0_input (group : string) : string :=
  PyStr.path_join (tmp_input_dir group) ["b0.nii.gz"].

Definition synb0_cmd_list (group : string) (t1w_is_skull_stripped : bool) : list string :=
  ["singularity"; "run"; "--cleanenv"; "--no-home";
   "-B"; realpath w (tmp_input_dir group) +:+ ":/INPUTS";
   "-B"; realpath w (tmp_output_dir group) +:+ ":/OUTPUTS";
   "-B"; realpath w (tmp_singularity_dir group) +:+ ":/tmp";
   container args; "--notopup"]
  ++ (if t1w_is_skull_stripped then ["--stripped"] else []).

(** Lines 299-303: run the slicing tool, then look for its output. *)
Definition extract_b0 (group : string) (dwi_ref : BIDSFile) : M unit :=
  emit (Subprocess ["fslroi"; path dwi_ref; b0_input group; "0"; "1"]) ;;
  if negb (produced w (b0_input group)) then
    print ("Could not extract b0 image from " +:+ path dwi_ref) ;;
    raise (SystemExit 1)
  else ret tt.

(** Lines 305-310. *)
Definition stage_t1 (group t1w_path : string) (t1w_skull_stripped_path : option string)
  : M unit :=
  let t1_input := PyStr.path_join (tmp_input_dir group) ["T1.nii.gz"] in
  match t1w_skull_stripped_path with
  | Some p =>
      if produced w p then emit (StageCopy p t1_input)
      else raise (FileNotFoundError p)
  | None =>
      files <- get_fs ;;
      match files !! t1w_path with
      | Some _ => emit (StageCopy t1w_path t1_input)
      | None => raise (FileNotFoundError t1w_path)
      end
  end.

Definition stage_and_run (group : string) (dwi_ref : BIDSFile) (pe_direction : string)
    (readout : json) (t1w_path : string) (t1w_skull_stripped_path : option string)
  : M unit :=
  emit (MakeDirs (tmp_input_dir group)) ;;
  emit (MakeDirs (tmp_output_dir group)) ;;
  emit (MakeDirs (tmp_singularity_dir group)) ;;
  extract_b0 group dwi_ref ;;
  stage_t1 group t1w_path t1w_skull_stripped_path ;;
  vec <- lift (lookup_or_KeyError phase_encode_vectors pe_direction) ;;
  emit (WriteAcqparams (PyStr.path_join (tmp_input_dir group) ["acqparams.txt"]) vec readout) ;;
  if negb (singularity_found w) then raise (RuntimeError "singularity executable not found")
  else
    let cmd := synb0_cmd_list group (bool_decide (is_Some t1w_skull_stripped_path)) in
    print ("---synb0 call---" +:+ newline +:+ str_join " " cmd +:+ newline +:+ "---") ;;
    emit (Subprocess cmd).

(** *** Output volume and sidecar (lines 336-369) *)

Definition output_dir : string :=
  PyStr.path_join (bids_dataset args) [sub_dir; ses_dir; "fmap"].

Definition write_fmap (group : string) (group_dwi_images : list BIDSFile)
    (dwi_ref : BIDSFile) (pe_direction : string) : M unit :=
  dir <- lift (fmap_phase_encode_dir pe_direction) ;;
  label <- lift (fmap_phase_encode_label dir) ;;
  let name := fmap_file_name (participant_label args) (session_label args) group label in
  emit (EnsureDir output_dir) ;;
  let b0_u := PyStr.path_join (tmp_output_dir group) ["b0_u.nii.gz"] in
  (if produced w b0_u then put_file (PyStr.path_join output_dir [name]) FData
   else raise (FileNotFoundError b0_u)) ;;
  let sidecar_out := PyStr.path_join output_dir [fmap_sidecar_file name] in
  copy_file (sidecar_path dwi_ref) sidecar_out ;;
  fmap_sidecar <- json_load sidecar_out ;;
  set_bound ;;
  match fmap_sidecar with
  | LOther => raise TypeError
  | LObj o =>
      put_file sidecar_out
        (FSidecar (edit_fmap_sidecar (session_label args) group_dwi_images dir o))
  end.

(** *** One iteration of the loop over groups (lines 210-369) *)
Definition process_group (t1w_path : string) (t1w_skull_stripped_path : option string)
    (g : string * list BIDSFile) : M unit :=
  let group := fst g in
  let group_dwi_images := snd g in
  print ("Running synb0 on group " +:+ group) ;;
  scan <- scan_pe_directions group_dwi_images ;;
  if negb (snd scan) then
    print ("Phase encoding direction not consistent for group " +:+ group
           +:+ ". Skipping group")
  else
    pe_direction <- as_str (fst scan) ;;
    print ("Phase encoding direction for group is " +:+ pe_direction) ;;
    match group_dwi_images with
    | [] => raise IndexError
    | dwi_ref :: _ =>
        rt <- resolve_total_readout_time dwi_ref ;;
        (if snd rt : bool
         then backfill_total_readout_time dwi_ref (fst rt) group_dwi_images
         else ret tt) ;;
        stage_and_run group dwi_ref pe_direction (fst rt) t1w_path t1w_skull_stripped_path ;;
        write_fmap group group_dwi_images dwi_ref pe_direction
    end.

Definition run_groups (t1w_path : string) (t1w_skull_stripped_path : option string)
    (dwi_groups : groups) : M unit :=
  forM (process_group t1w_path t1w_skull_stripped_path) dwi_groups.

(** *** The script (lines 137-369) *)

Definition t1w_files : list string :=
  match t1w_image_suffix args with
  | Some suffix =>
      [PyStr.path_join (bids_dataset args)
         [sub_dir; ses_dir; "anat";
          "sub-" +:+ participant_label args +:+ "_ses-" +:+ session_label args
          +:+ "_" +:+ suffix]]
  | None => t1w_layout w
  end.

Definition main : M unit :=
  match filter args with
  | Some value => bids_filter value
  | None => ret tt
  end ;;
  let dwi_groups := select_dwi_groups (combine_all_dwis args) (dwi_images w) in
  if (1 <? length t1w_files)%nat then
    print ("More than one T1w image found for subject " +:+ participant_label args
           +:+ " session " +:+ session_label args +:+ ". Need a more specific filter") ;;
    raise (SystemExit 1)
  else
    match t1w_files with
    | [] =>
        print ("No T1w image found for subject " +:+ participant_label args
               +:+ " session " +:+ session_label args) ;;
        raise (SystemExit 1)
    | t1w_path :: _ =>
        files <- get_fs ;;
        match files !! t1w_path with
        | None =>
            print ("T1w image " +:+ t1w_path +:+ " not found") ;;
            raise (SystemExit 1)
        | Some _ =>
            let t1w_filename := basename t1w_path in
            print ("Processing subject " +:+ participant_label args
                   +:+ " session " +:+ session_label args) ;;
            print ("T1w: " +:+ t1w_path) ;;
            emit (PrintGroups dwi_groups) ;;
            t1w_skull_stripped_path <- resolve_brain_mask t1w_path t1w_filename ;;
            run_groups t1w_path t1w_skull_stripped_path dwi_groups
        end
    end.

End Script.

(** * Properties *)

(** ** The acquisition grouper *)

Section Grouper.

Implicit Types (k : string) (file : BIDSFile) (d : groups) (l : list BIDSFile).

Lemma get_dwi_images_snoc l file :
  get_dwi_images (l ++ [file])
  = append_to_group (acq_label file) file (get_dwi_images l).
Proof. unfold get_dwi_images. by rewrite fold_left_app. Qed.

Lemma members_with_snoc k l file :
  members_with k (l ++ [file])
  = members_with k l ++ (if String.eqb (acq_label file) k then [file] else []).
Proof. unfold members_with. rewrite List.filter_app. simpl. by destruct (String.eqb _ _). Qed.

Lemma members_with_elem k l file :
  file ∈ members_with k l ↔ file ∈ l ∧ acq_label file = k.
Proof.
  unfold members_with. rewrite !list_elem_of_In, List.filter_In.
  by rewrite String.eqb_eq.
Qed.

Lemma append_to_group_keys k file d :
  map fst (append_to_group k file d)
  = map fst d ++ (if bool_decide (k ∈ map fst d) then [] else [k]).
Proof.
  induction d as [|[k' members] d IH]; simpl; [done|].
  destruct (String.eqb_spec k' k) as [->|Hne]; simpl.
  - rewrite bool_decide_true by apply list_elem_of_here. by rewrite app_nil_r.
  - rewrite IH. f_equal.
    destruct (decide (k ∈ map fst d)) as [Hin|Hin].
    + rewrite !bool_decide_true; [done|by apply list_elem_of_further|done].
    + rewrite !bool_decide_false; [done| |done].
      rewrite not_elem_of_cons. split; [congruence|done].
Qed.

Lemma append_to_group_elem k file d k' members' :
  (k', members') ∈ append_to_group k file d →
  (k' ≠ k ∧ (k', members') ∈ d)
  ∨ (k' = k ∧ (∃ members, (k, members) ∈ d ∧ members' = members ++ [file]))
  ∨ (k' = k ∧ (k ∉ map fst d) ∧ members' = [file])
  ∨ (k' = k ∧ (k', members') ∈ d ∧ ¬ NoDup (map fst d)).
Proof.
  induction d as [|[k0 members0] d IH]; simpl.
  - intros H. apply list_elem_of_singleton in H. injection H as -> ->.
    right; right; left. split; [done|]. split; [apply not_elem_of_nil|done].
  - destruct (String.eqb_spec k0 k) as [->|Hne].
    + intros [Heq|Hin]%elem_of_cons.
      * injection Heq as -> ->. right; left. split; [done|].
        exists members0. set_solver.
      * destruct (decide (k' = k)) as [->|Hk].
        -- right; right; right. split; [done|]. split; [set_solver|].
           rewrite NoDup_cons. intros [Hnot _]. apply Hnot.
           apply list_elem_of_fmap. by exists (k, members').
        -- left. set_solver.
    + intros [Heq|Hin]%elem_of_cons.
      * injection Heq as -> ->. left. set_solver.
      * destruct (IH Hin) as [[? ?]|[[-> (m & ? & ->)]|[[-> [? ->]]|[-> [? Hnd]]]]].
        -- left. set_solver.
        -- right; left. split; [done|]. exists m. set_solver.
        -- right; right; left. split; [done|]. split; [|done].
           rewrite not_elem_of_cons. split; [congruence|done].
        -- right; right; right. split; [done|]. split; [set_solver|].
           rewrite NoDup_cons. tauto.
Qed.

Lemma append_to_group_concat k file d :
  concat (map snd (append_to_group k file d)) ≡ₚ concat (map snd d) ++ [file].
Proof.
  induction d as [|[k' members] d IH]; simpl; [done|].
  destruct (String.eqb k' k); simpl.
  - rewrite <- !(assoc_L (++)). apply Permutation_app_head, Permutation_app_comm.
  - by rewrite IH, (assoc_L (++)).
Qed.

(** What holds of the dictionary after any prefix of the loop. *)
Record grouped (l : list BIDSFile) (d : groups) : Prop := {
  grouped_keys : NoDup (map fst d);
  grouped_members : ∀ k members, (k, members) ∈ d → members = members_with k l ∧ members ≠ [];
  grouped_total : ∀ file, file ∈ l → acq_label file ∈ map fst d;
  grouped_perm : concat (map snd d) ≡ₚ l
}.

Lemma get_dwi_images_grouped l : grouped l (get_dwi_images l).
Proof.
  induction l as [|file l IH] using rev_ind.
  - split; simpl; [constructor|set_solver|set_solver|done].
  - destruct IH as [Hk Hm Ht Hp]. rewrite get_dwi_images_snoc. split.
    + rewrite append_to_group_keys. case_bool_decide; [by rewrite app_nil_r|].
      apply NoDup_app. split; [done|]. split; [set_solver|apply NoDup_singleton].
    + intros k members Hin. rewrite members_with_snoc.
      apply append_to_group_elem in Hin
        as [[Hne Hin]|[[-> (m & Hin & ->)]|[[-> [Hnew ->]]|[_ [_ Hnd]]]]].
      * destruct (Hm _ _ Hin) as [-> Hnil].
        destruct (String.eqb_spec (acq_label file) k); [congruence|].
        by rewrite app_nil_r.
      * destruct (Hm _ _ Hin) as [-> Hnil]. rewrite String.eqb_refl.
        split; [done|]. by destruct (members_with _ _).
      * rewrite String.eqb_refl. split; [|done].
        destruct (members_with (acq_label file) l) as [|f' ms] eqn:E; [done|].
        assert (f' ∈ l ∧ acq_label f' = acq_label file) as [Hf Heq]
          by (apply members_with_elem; rewrite E; apply list_elem_of_here).
        exfalso. apply Hnew. rewrite <- Heq. by apply Ht.
      * done.
    + intros f' Hin. rewrite append_to_group_keys.
      apply elem_of_app in Hin as [Hin|Hin].
      * apply elem_of_app. left. by apply Ht.
      * apply list_elem_of_singleton in Hin as ->.
        case_bool_decide; [by rewrite app_nil_r|].
        apply elem_of_app. right. apply list_elem_of_here.
    + by rewrite append_to_group_concat, Hp.
Qed.

End Grouper.

(** ** Reading the loop over one group *)

(** The state after some more events. *)
Definition add_out (st : state) (evs : list event) : state :=
  mkState (fs st) (out st ++ evs) (fmap_sidecar_bound st).

(** The phase-encoding direction an image declares on disk. *)
Definition pe_of (files : gmap string file) (dwi_image : BIDSFile) : option json :=
  match files !! sidecar_path dwi_image with
  | Some (FSidecar o) => o !! "PhaseEncodingDirection"
  | _ => None
  end.

Definition pe_matches (files : gmap string file) (pe : string) (dwi_image : BIDSFile) : bool :=
  match pe_of files dwi_image with
  | Some v => py_eq (JStr pe) v
  | None => false
  end.

(** What one iteration of the check prints for a later member. *)
Definition member_log (files : gmap string file) (pe : string) (dwi_image : BIDSFile)
  : list event :=
  Print ("Checking phase encoding direction for " +:+ filename dwi_image)
  :: (if pe_matches files pe dwi_image then []
      else [Print ("Phase encoding direction for " +:+ filename dwi_image
                   +:+ " does not match previous images in group")]).

(** The events that invoke the synthesis container. *)
Definition is_synthesis_call (e : event) : bool :=
  match e with
  | Subprocess ("singularity" :: _) => true
  | _ => false
  end.

Definition synthesis_invoked (evs : list event) : bool := existsb is_synthesis_call evs.

Definition is_print (e : event) : bool :=
  match e with
  | Print _ => true
  | _ => false
  end.

Section MonadFacts.

Lemma add_out_nil st : add_out st [] = st.
Proof. destruct st. unfold add_out. simpl. by rewrite app_nil_r. Qed.

Lemma add_out_add_out st a b : add_out (add_out st a) b = add_out st (a ++ b).
Proof. unfold add_out. simpl. by rewrite (assoc_L (++)). Qed.

Lemma fs_add_out st evs : fs (add_out st evs) = fs st.
Proof. done. Qed.

Lemma emit_eq e st : emit e st = (Ret tt, add_out st [e]).
Proof. done. Qed.

Lemma print_eq s st : print s st = (Ret tt, add_out st [Print s]).
Proof. done. Qed.

Lemma bind_Ret {A B} (m : M A) (k : A → M B) st a st' :
  m st = (Ret a, st') → bind m k st = k a st'.
Proof. unfold bind. by intros ->. Qed.

Lemma bind_Raise {A B} (m : M A) (k : A → M B) st e st' :
  m st = (Raise e, st') → bind m k st = (Raise e, st').
Proof. unfold bind. by intros ->. Qed.

Lemma json_load_sidecar p o st :
  fs st !! p = Some (FSidecar o) → json_load p st = (Ret (LObj o), st).
Proof. unfold json_load, bind, get_fs. by intros ->. Qed.

Lemma synthesis_invoked_app a b :
  synthesis_invoked (a ++ b) = synthesis_invoked a || synthesis_invoked b.
Proof. apply existsb_app. Qed.

Lemma synthesis_invoked_prints evs :
  forallb is_print evs = true → synthesis_invoked evs = false.
Proof.
  induction evs as [|e evs IH]; simpl; [done|].
  intros [He Hevs]%andb_prop. rewrite (IH Hevs). by destruct e.
Qed.

End MonadFacts.

Section PhaseEncodingScan.

Lemma py_eq_str pe v : py_eq (JStr pe) v = true ↔ v = JStr pe.
Proof.
  destruct v; simpl; try (split; [done|congruence]).
  rewrite String.eqb_eq. split; congruence.
Qed.

#[local] Arguments py_eq : simpl never.

Lemma member_log_prints files pe m : forallb is_print (member_log files pe m) = true.
Proof. unfold member_log. by destruct (pe_matches _ _ _). Qed.

Lemma check_first (dwi_image : BIDSFile) pe st :
  pe_of (fs st) dwi_image = Some (JStr pe) →
  check_pe_direction dwi_image (JNull, true) st
  = (Ret (JStr pe, true),
     add_out st [Print ("Checking phase encoding direction for " +:+ filename dwi_image)]).
Proof.
  unfold pe_of. intros H.
  destruct (fs st !! sidecar_path dwi_image) as [[o| |]|] eqn:E; try done.
  unfold check_pe_direction.
  rewrite (bind_Ret _ _ _ _ _ (print_eq _ _)).
  rewrite (bind_Ret _ _ _ (LObj o) (add_out st [Print _])) by by apply json_load_sidecar.
  simpl. unfold bind. simpl. by rewrite H.
Qed.

Lemma check_later (dwi_image : BIDSFile) pe ok st :
  is_Some (pe_of (fs st) dwi_image) →
  check_pe_direction dwi_image (JStr pe, ok) st
  = (Ret (JStr pe, ok && pe_matches (fs st) pe dwi_image),
     add_out st (member_log (fs st) pe dwi_image)).
Proof.
  unfold member_log, pe_matches, pe_of. intros [v H].
  destruct (fs st !! sidecar_path dwi_image) as [[o| |]|] eqn:E; try done.
  unfold check_pe_direction.
  rewrite (bind_Ret _ _ _ _ _ (print_eq _ _)).
  rewrite (bind_Ret _ _ _ (LObj o) (add_out st [Print _])) by by apply json_load_sidecar.
  simpl. unfold bind. simpl. rewrite H. simpl.
  destruct (py_eq (JStr pe) v); simpl.
  - by rewrite andb_true_r.
  - unfold ret, add_out. simpl. by rewrite andb_false_r, <- (assoc_L (++)).
Qed.

Lemma scan_later (rest : list BIDSFile) pe ok st :
  Forall (λ m, is_Some (pe_of (fs st) m)) rest →
  foldM check_pe_direction rest (JStr pe, ok) st
  = (Ret (JStr pe, ok && forallb (pe_matches (fs st) pe) rest),
     add_out st (flat_map (member_log (fs st) pe) rest)).
Proof.
  revert ok st. induction rest as [|m rest IH]; intros ok st Hall; simpl.
  - by rewrite andb_true_r, add_out_nil.
  - apply Forall_cons in Hall as [Hm Hrest].
    rewrite (bind_Ret _ _ _ _ _ (check_later m pe ok st Hm)).
    rewrite IH by done. simpl.
    by rewrite add_out_add_out, andb_assoc.
Qed.

(** A group whose first member declares the string [pe] and whose other
    members all declare some direction. *)
Lemma scan_pe_directions_eq (dwi_ref : BIDSFile) (rest : list BIDSFile) pe st :
  pe_of (fs st) dwi_ref = Some (JStr pe) →
  Forall (λ m, is_Some (pe_of (fs st) m)) rest →
  scan_pe_directions (dwi_ref :: rest) st
  = (Ret (JStr pe, forallb (pe_matches (fs st) pe) rest),
     add_out st (Print ("Checking phase encoding direction for " +:+ filename dwi_ref)
                 :: flat_map (member_log (fs st) pe) rest)).
Proof.
  intros Href Hrest. unfold scan_pe_directions. simpl.
  rewrite (bind_Ret _ _ _ _ _ (check_first dwi_ref pe st Href)).
  rewrite scan_later by done. simpl. by rewrite add_out_add_out.
Qed.

End PhaseEncodingScan.

(** ** The loop body after the phase-encoding check *)

(** Lines 239-369 for a group whose direction is the string [pe_direction]. *)
Definition group_body (args : Args) (w : World) (t1w_path : string)
    (t1w_skull_stripped_path : option string) (group : string)
    (group_dwi_images : list BIDSFile) (dwi_ref : BIDSFile) (pe_direction : string) : M unit :=
  rt <- resolve_total_readout_time args dwi_ref ;;
  (if snd rt : bool
   then backfill_total_readout_time dwi_ref (fst rt) group_dwi_images
   else ret tt) ;;
  stage_and_run args w group dwi_ref pe_direction (fst rt) t1w_path t1w_skull_stripped_path ;;
  write_fmap args w group group_dwi_images dwi_ref pe_direction.

(** What the check prints for a whole group. *)
Definition scan_log (files : gmap string file) (pe : string) (dwi_ref : BIDSFile)
    (rest : list BIDSFile) : list event :=
  Print ("Checking phase encoding direction for " +:+ filename dwi_ref)
  :: flat_map (member_log files pe) rest.


Ltac step H := rewrite (bind_Ret _ _ _ _ _ H).

Section LoopBody.

Variables (args : Args) (w : World).
Variables (t1w_path : string) (t1w_skull_stripped_path : option string).

Lemma scan_log_prints files pe dwi_ref rest :
  forallb is_print (scan_log files pe dwi_ref rest) = true.
Proof.
  unfold scan_log. cbn [forallb is_print andb].
  induction rest as [|m rest IH]; cbn [flat_map]; [done|].
  by rewrite forallb_app, IH, member_log_prints.
Qed.


Lemma process_group_consistent group dwi_ref rest pe st :
  pe_of (fs st) dwi_ref = Some (JStr pe) →
  Forall (λ m, is_Some (pe_of (fs st) m)) rest →
  forallb (pe_matches (fs st) pe) rest = true →
  process_group args w t1w_path t1w_skull_stripped_path (group, dwi_ref :: rest) st
  = group_body args w t1w_path t1w_skull_stripped_path group (dwi_ref :: rest) dwi_ref pe
      (add_out st (Print ("Running synb0 on group " +:+ group)
                   :: scan_log (fs st) pe dwi_ref rest
                   ++ [Print ("Phase encoding direction for group is " +:+ pe)])).
Proof.
  intros Href Hrest Hgood. unfold process_group. simpl fst. simpl snd.
  step (print_eq ("Running synb0 on group " +:+ group) st).
  step (scan_pe_directions_eq dwi_ref rest pe
          (add_out st [Print ("Running synb0 on group " +:+ group)]) Href Hrest).
  rewrite !fs_add_out, Hgood. cbn [fst snd negb].
  assert (as_str (JStr pe) = ret pe) as -> by done.
  rewrite (bind_Ret _ _ _ pe _ eq_refl).
  step (print_eq ("Phase encoding direction for group is " +:+ pe)
          (add_out (add_out st [Print ("Running synb0 on group " +:+ group)])
             (scan_log (fs st) pe dwi_ref rest))).
  rewrite !add_out_add_out. done.
Qed.

Lemma run_groups_cons g later st :
  run_groups args w t1w_path t1w_skull_stripped_path (g :: later) st
  = match process_group args w t1w_path t1w_skull_stripped_path g st with
    | (Ret _, st') => run_groups args w t1w_path t1w_skull_stripped_path later st'
    | (Raise e, st') => (Raise e, st')
    end.
Proof. done. Qed.

End LoopBody.

(** ** Readout time, backfill and extraction, step by step *)

Section Steps.

Variables (args : Args) (w : World).

Definition no_readout_in_sidecar (dwi_ref : BIDSFile) : event :=
  Print ("No total readout time in sidecar for " +:+ path dwi_ref).

Definition no_readout_at_all : event :=
  Print "No total readout time in sidecar and no readout time specified on command line".

Lemma resolve_from_sidecar dwi_ref o v st :
  fs st !! sidecar_path dwi_ref = Some (FSidecar o) →
  o !! "TotalReadoutTime" = Some v →
  resolve_total_readout_time args dwi_ref st = (Ret (v, false), st).
Proof.
  intros Hf Hv. unfold resolve_total_readout_time.
  step (json_load_sidecar _ _ _ Hf). by rewrite Hv.
Qed.

Lemma resolve_from_override dwi_ref o t st :
  fs st !! sidecar_path dwi_ref = Some (FSidecar o) →
  o !! "TotalReadoutTime" = None →
  total_readout_time args = Some t →
  resolve_total_readout_time args dwi_ref st
  = (Ret (JStr t, true), add_out st [no_readout_in_sidecar dwi_ref]).
Proof.
  intros Hf Hv Ht. unfold resolve_total_readout_time.
  step (json_load_sidecar _ _ _ Hf). rewrite Hv, Ht.
  by step (print_eq ("No total readout time in sidecar for " +:+ path dwi_ref) st).
Qed.

Lemma resolve_fatal dwi_ref o st :
  fs st !! sidecar_path dwi_ref = Some (FSidecar o) →
  o !! "TotalReadoutTime" = None →
  total_readout_time args = None →
  resolve_total_readout_time args dwi_ref st
  = (Raise (SystemExit 1), add_out st [no_readout_in_sidecar dwi_ref; no_readout_at_all]).
Proof.
  intros Hf Hv Ht. unfold resolve_total_readout_time.
  step (json_load_sidecar _ _ _ Hf). rewrite Hv, Ht.
  step (print_eq ("No total readout time in sidecar for " +:+ path dwi_ref) st).
  unfold bind. rewrite print_eq, add_out_add_out. done.
Qed.

(** The backfill never gets past its first iteration: the reference
    sidecar is emptied and the [json.dump] raises. *)
Lemma backfill_raises dwi_ref o t m rest st :
  fs st !! sidecar_path dwi_ref = Some (FSidecar o) →
  backfill_total_readout_time dwi_ref (JStr t) (m :: rest) st
  = (Raise (if fmap_sidecar_bound st then ValueError else NameError "fmap_sidecar"),
     mkState (<[sidecar_path dwi_ref := FData]> (fs st))
             (out st ++ [Print ("Inserting total readout time from command line: " +:+ t)])
             (fmap_sidecar_bound st)).
Proof.
  intros Hf. unfold backfill_total_readout_time. cbn [forM].
  unfold backfill_one at 1. unfold bind at 1. unfold bind at 1.
  cbn [as_str ret].
  step (print_eq ("Inserting total readout time from command line: " +:+ t) st).
  rewrite (bind_Ret _ _ _ (LObj o) (add_out st [Print _]))
    by (by apply json_load_sidecar).
  unfold bind, setitem, ret, put_file, get_bound, raise. simpl.
  by destruct (fmap_sidecar_bound st).
Qed.

Definition fslroi_call (group : string) (dwi_ref : BIDSFile) : event :=
  Subprocess ["fslroi"; path dwi_ref; b0_input w group; "0"; "1"].

Lemma extract_b0_missing group dwi_ref st :
  produced w (b0_input w group) = false →
  extract_b0 w group dwi_ref st
  = (Raise (SystemExit 1),
     add_out st [fslroi_call group dwi_ref;
                 Print ("Could not extract b0 image from " +:+ path dwi_ref)]).
Proof.
  intros Hp. unfold extract_b0.
  step (emit_eq (Subprocess ["fslroi"; path dwi_ref; b0_input w group; "0"; "1"]) st).
  rewrite Hp. cbn [negb]. unfold bind. rewrite print_eq, add_out_add_out. done.
Qed.

Lemma extract_b0_present group dwi_ref st :
  produced w (b0_input w group) = true →
  extract_b0 w group dwi_ref st = (Ret tt, add_out st [fslroi_call group dwi_ref]).
Proof.
  intros Hp. unfold extract_b0.
  step (emit_eq (Subprocess ["fslroi"; path dwi_ref; b0_input w group; "0"; "1"]) st).
  by rewrite Hp.
Qed.

End Steps.

(** ** A group that goes through *)

Definition fmap_volume_path (args : Args) (group label : string) : string :=
  PyStr.path_join (output_dir args)
    [fmap_file_name (participant_label args) (session_label args) group label].

Definition fmap_sidecar_path (args : Args) (group label : string) : string :=
  PyStr.path_join (output_dir args)
    [fmap_sidecar_file (fmap_file_name (participant_label args) (session_label args) group label)].

Definition t1_source (t1w_path : string) (t1w_skull_stripped_path : option string) : string :=
  match t1w_skull_stripped_path with
  | Some p => p
  | None => t1w_path
  end.

Definition synb0_call (args : Args) (w : World) (group : string)
    (t1w_skull_stripped_path : option string) : event :=
  Subprocess (synb0_cmd_list args w group (bool_decide (is_Some t1w_skull_stripped_path))).

(** The events of lines 281-334 when nothing fails. *)
Definition stage_log (args : Args) (w : World) (group : string) (dwi_ref : BIDSFile)
    (vec : list Z) (readout : json) (t1w_path : string)
    (t1w_skull_stripped_path : option string) : list event :=
  [MakeDirs (tmp_input_dir w group);
   MakeDirs (tmp_output_dir w group);
   MakeDirs (tmp_singularity_dir w group);
   fslroi_call w group dwi_ref;
   StageCopy (t1_source t1w_path t1w_skull_stripped_path)
             (PyStr.path_join (tmp_input_dir w group) ["T1.nii.gz"]);
   WriteAcqparams (PyStr.path_join (tmp_input_dir w group) ["acqparams.txt"]) vec readout;
   Print ("---synb0 call---" +:+ newline
          +:+ str_join " " (synb0_cmd_list args w group
                              (bool_decide (is_Some t1w_skull_stripped_path)))
          +:+ newline +:+ "---");
   synb0_call args w group t1w_skull_stripped_path].

Definition t1_available (w : World) (files : gmap string file) (t1w_path : string)
    (t1w_skull_stripped_path : option string) : Prop :=
  match t1w_skull_stripped_path with
  | Some p => produced w p = true
  | None => is_Some (files !! t1w_path)
  end.

Section Success.

Variables (args : Args) (w : World).
Variables (t1w_path : string) (t1w_skull_stripped_path : option string).

Lemma stage_t1_ok group st :
  t1_available w (fs st) t1w_path t1w_skull_stripped_path →
  stage_t1 w group t1w_path t1w_skull_stripped_path st
  = (Ret tt, add_out st [StageCopy (t1_source t1w_path t1w_skull_stripped_path)
                           (PyStr.path_join (tmp_input_dir w group) ["T1.nii.gz"])]).
Proof.
  unfold t1_available, stage_t1, t1_source.
  destruct t1w_skull_stripped_path as [p|].
  - by intros ->.
  - intros [f Hf]. unfold bind, get_fs. by rewrite Hf.
Qed.

Lemma stage_and_run_ok group dwi_ref pe vec readout st :
  produced w (b0_input w group) = true →
  t1_available w (fs st) t1w_path t1w_skull_stripped_path →
  phase_encode_vectors !! pe = Some vec →
  singularity_found w = true →
  stage_and_run args w group dwi_ref pe readout t1w_path t1w_skull_stripped_path st
  = (Ret tt,
     add_out st (stage_log args w group dwi_ref vec readout t1w_path t1w_skull_stripped_path)).
Proof.
  intros Hb0 Ht1 Hvec Hsing. unfold stage_and_run.
  step (emit_eq (MakeDirs (tmp_input_dir w group)) st).
  step (emit_eq (MakeDirs (tmp_output_dir w group))
          (add_out st [MakeDirs (tmp_input_dir w group)])).
  rewrite add_out_add_out.
  step (emit_eq (MakeDirs (tmp_singularity_dir w group))
          (add_out st ([MakeDirs (tmp_input_dir w group)]
                       ++ [MakeDirs (tmp_output_dir w group)]))).
  rewrite add_out_add_out.
  erewrite bind_Ret by (by apply extract_b0_present).
  rewrite add_out_add_out.
  erewrite bind_Ret by (by apply stage_t1_ok).
  rewrite add_out_add_out.
  unfold lookup_or_KeyError. rewrite Hvec. cbn [lift].
  erewrite bind_Ret by reflexivity.
  erewrite bind_Ret by apply emit_eq.
  rewrite add_out_add_out, Hsing. cbn [negb].
  erewrite bind_Ret by apply print_eq.
  rewrite emit_eq, !add_out_add_out. done.
Qed.

Lemma write_fmap_ok group members dwi_ref pe dir label o st :
  fmap_phase_encode_dir pe = Ret dir →
  fmap_phase_encode_label dir = Ret label →
  produced w (PyStr.path_join (tmp_output_dir w group) ["b0_u.nii.gz"]) = true →
  fs st !! sidecar_path dwi_ref = Some (FSidecar o) →
  sidecar_path dwi_ref ≠ fmap_volume_path args group label →
  write_fmap args w group members dwi_ref pe st
  = (Ret tt,
     mkState (<[fmap_sidecar_path args group label :=
                  FSidecar (edit_fmap_sidecar (session_label args) members dir o)]>
                (<[fmap_volume_path args group label := FData]> (fs st)))
             (out st ++ [EnsureDir (output_dir args)])
             true).
Proof.
  intros Hdir Hlabel Hb0u Hf Hne. unfold write_fmap.
  rewrite Hdir. cbn [lift]. erewrite bind_Ret by reflexivity.
  rewrite Hlabel. cbn [lift]. erewrite bind_Ret by reflexivity.
  erewrite bind_Ret by apply emit_eq.
  rewrite Hb0u.
  unfold bind, put_file, copy_file, json_load, get_fs, set_bound, bind, ret.
  cbn [fs out fmap_sidecar_bound add_out].
  fold (fmap_volume_path args group label).
  fold (fmap_sidecar_path args group label).
  rewrite lookup_insert_ne by done. rewrite Hf.
  unfold put_file. cbn [fs out fmap_sidecar_bound].
  rewrite lookup_insert_eq.
  cbn [fs out fmap_sidecar_bound].
  by rewrite insert_insert_eq.
Qed.

End Success.

(** ** Output names *)

Definition no_dot (s : string) : bool :=
  forallb (fun c => negb (Ascii.eqb c ".")) (list_ascii_of_string s).

(** The name of the output without its extension. *)
Definition fmap_stem (participant_label session_label group label : string) : string :=
  "sub-" +:+ participant_label +:+ "_ses-" +:+ session_label +:+ "_acq-"
  +:+ (if String.eqb group "noacq" then "" else group)
  +:+ "synb0_dir-" +:+ label +:+ "_epi".

Section Names.

Lemma str_app_assoc (a b c : string) : (a +:+ b) +:+ c = a +:+ (b +:+ c).
Proof.
  induction a as [|x a IH]; [done|].
  change (String x ((a +:+ b) +:+ c) = String x (a +:+ (b +:+ c))). by rewrite IH.
Qed.

Lemma no_dot_app (a b : string) : no_dot (a +:+ b) = no_dot a && no_dot b.
Proof.
  unfold no_dot. induction a as [|x a IH]; [done|].
  change (String x a +:+ b) with (String x (a +:+ b)).
  cbn [list_ascii_of_string forallb]. by rewrite IH, andb_assoc.
Qed.

Lemma replace_extension (stem : string) :
  no_dot stem = true →
  PyStr.replace (stem +:+ ".nii.gz") ".nii.gz" ".json" = stem +:+ ".json".
Proof.
  unfold PyStr.replace, no_dot. induction stem as [|c stem IH]; [done|].
  cbn [list_ascii_of_string forallb]. intros [Hc Hs]%andb_prop.
  change (String c stem +:+ ".nii.gz") with (String c (stem +:+ ".nii.gz")).
  change (String c stem +:+ ".json") with (String c (stem +:+ ".json")).
  cbn [PyStr.replace_from String.prefix].
  destruct (ascii_dec "." c) as [<-|Hne]; [done|].
  by rewrite IH.
Qed.

Lemma fmap_file_name_stem (participant_label session_label group label : string) :
  fmap_file_name participant_label session_label group label
  = fmap_stem participant_label session_label group label +:+ ".nii.gz".
Proof.
  unfold fmap_file_name, fmap_stem.
  destruct (String.eqb group "noacq"); rewrite !str_app_assoc; reflexivity.
Qed.

Lemma fmap_sidecar_file_stem (participant_label session_label group label : string) :
  no_dot participant_label = true → no_dot session_label = true →
  no_dot group = true → no_dot label = true →
  fmap_sidecar_file (fmap_file_name participant_label session_label group label)
  = fmap_stem participant_label session_label group label +:+ ".json".
Proof.
  intros Hp Hs Hg Hl. unfold fmap_sidecar_file.
  rewrite fmap_file_name_stem. apply replace_extension.
  unfold fmap_stem. rewrite !no_dot_app, Hp, Hs, Hl.
  by destruct (String.eqb group "noacq"); rewrite ?Hg.
Qed.

End Names.

(** ** The brain-mask search *)

(** [Sources[0]] of the mask sidecar [name], when it is a string. *)
Definition mask_source (files : gmap string file) (mask_dir name : string) : option string :=
  match files !! PyStr.path_join mask_dir [name] with
  | Some (FSidecar o) =>
      match o !! "Sources" with
      | Some (JArr (JStr s :: _)) => Some s
      | _ => None
      end
  | _ => None
  end.

Definition mask_selects (files : gmap string file) (mask_dir t1w_filename name : string) : bool :=
  match mask_source files mask_dir name with
  | Some s => PyStr.endswith s t1w_filename
  | None => false
  end.

(** The sidecars the search looks at, in listing order. *)
Definition mask_candidates (names : list string) : list string :=
  List.filter (fun f => PyStr.endswith f "_mask.json") names.

Definition anat_dir (args : Args) (dataset : string) : string :=
  PyStr.path_join dataset [sub_dir args; ses_dir args; "anat"].

Definition mask_volume (mask_dir name : string) : string :=
  PyStr.path_join mask_dir [PyStr.replace name ".json" ".nii.gz"].

Definition no_mask_found (args : Args) : event :=
  Print ("No T1w brain mask found for subject " +:+ participant_label args
         +:+ " session " +:+ session_label args).

Section BrainMask.

Variables (args : Args) (w : World).

Lemma mask_matches_eq mask_dir t1w_filename name s st :
  mask_source (fs st) mask_dir name = Some s →
  mask_matches mask_dir t1w_filename name st = (Ret (PyStr.endswith s t1w_filename), st).
Proof.
  unfold mask_source, mask_matches. intros H.
  destruct (fs st !! PyStr.path_join mask_dir [name]) as [[o| |]|] eqn:Hf; try done.
  step (json_load_sidecar _ _ _ Hf).
  destruct (o !! "Sources") as [[| | | |[|[] ?]|]|] eqn:Ho; try done.
  injection H as <-. unfold getitem. rewrite Ho. by step (eq_refl (ret (JArr (JStr s0 :: l)) st)).
Qed.

Lemma find_t1w_mask_eq mask_dir t1w_filename candidates st :
  Forall (λ n, is_Some (mask_source (fs st) mask_dir n)) candidates →
  find_t1w_mask mask_dir t1w_filename candidates st
  = (Ret (mask_volume mask_dir
          <$> List.find (mask_selects (fs st) mask_dir t1w_filename) candidates), st).
Proof.
  induction candidates as [|n rest IH]; [done|].
  intros [[s Hs] Hrest]%Forall_cons. cbn [find_t1w_mask List.find].
  step (mask_matches_eq mask_dir t1w_filename n s st Hs).
  unfold mask_selects at 1. rewrite Hs.
  destruct (PyStr.endswith s t1w_filename); [done|]. by apply IH.
Qed.

Lemma get_t1w_skull_stripped_eq dataset t1w_path t1w_filename names st :
  listdir w (anat_dir args dataset) = Some names →
  Forall (λ n, is_Some (mask_source (fs st) (anat_dir args dataset) n)) (mask_candidates names) →
  get_t1w_skull_stripped args w dataset t1w_path t1w_filename st
  = match List.find (mask_selects (fs st) (anat_dir args dataset) t1w_filename)
            (mask_candidates names) with
    | Some n =>
        (Ret (Some (skull_stripped_file w)),
         add_out st [Print ("Using T1w mask " +:+ mask_volume (anat_dir args dataset) n);
                     Subprocess ["fslmaths"; t1w_path; "-mas";
                                 mask_volume (anat_dir args dataset) n;
                                 skull_stripped_file w]])
    | None => (Ret None, st)
    end.
Proof.
  intros Hls Hwf. unfold get_t1w_skull_stripped.
  fold (anat_dir args dataset). rewrite Hls. fold (mask_candidates names).
  step (find_t1w_mask_eq (anat_dir args dataset) t1w_filename (mask_candidates names) st Hwf).
  destruct (List.find _ _) as [n|]; [|done]. cbn [fmap option_fmap option_map].
  erewrite bind_Ret by apply print_eq.
  erewrite bind_Ret by apply emit_eq.
  by rewrite add_out_add_out.
Qed.

End BrainMask.

(** ** Concrete runs *)

Module Run.

Definition dwi (acq run : string) : BIDSFile :=
  let name := "sub-01_ses-1_acq-" +:+ acq +:+ "_run-" +:+ run +:+ "_dwi.nii.gz" in
  mkFile ("/data/sub-01/ses-1/dwi/" +:+ name) name (Some acq).

Definition a1 : BIDSFile := dwi "dir98" "1".
Definition a2 : BIDSFile := dwi "dir98" "2".
Definition b1 : BIDSFile := dwi "dir99" "1".

Definition t1w : string := "/data/sub-01/ses-1/anat/sub-01_ses-1_T1w.nii.gz".

(** A sidecar with a direction, an echo time and, optionally, a readout time. *)
Definition dwi_sidecar (pe : string) (readout : option Q) : sidecar :=
  let base : sidecar :=
    <["PhaseEncodingDirection" := JStr pe]> (<["EchoTime" := JNum (89 # 1000)]> ∅) in
  match readout with
  | Some q => <["TotalReadoutTime" := JNum q]> base
  | None => base
  end.

Definition dataset (l : list (BIDSFile * sidecar)) : gmap string file :=
  foldr (fun e files => <[sidecar_path e.1 := FSidecar e.2]> files)
        (<[t1w := FData]> ∅) l.

Definition start (files : gmap string file) : state := mkState files [] false.

Definition args (readout : option string) : Args :=
  mkArgs "synb0.sif" "/data" "01" "1" None readout false None None.

Definition world (images : list BIDSFile) (produced : string -> bool) : World :=
  mkWorld images [t1w] (fun _ => Some []) "/scratch/bids-synb0.k3" (fun p => p) true produced.

Definition all_produced (p : string) : bool := true.

(** Two images of one acquisition, direction [j], readout time present. *)
Definition filesA : gmap string file :=
  dataset [(a1, dwi_sidecar "j" (Some (5 # 100))); (a2, dwi_sidecar "j" (Some (5 # 100)))].
Definition runA : outcome unit * state :=
  main (args None) (world [a1; a2] all_produced) (start filesA).

(** Two acquisitions; the second one has no readout time and none is given. *)
Definition filesB : gmap string file :=
  dataset [(a1, dwi_sidecar "j" (Some (5 # 100))); (b1, dwi_sidecar "j" None)].
Definition runB : outcome unit * state :=
  main (args None) (world [a1; b1] all_produced) (start filesB).

(** One acquisition without readout time, and an override on the command line. *)
Definition filesC : gmap string file :=
  dataset [(a1, dwi_sidecar "j" None); (a2, dwi_sidecar "j" None)].
Definition runC : outcome unit * state :=
  main (args (Some "0.05")) (world [a1; a2] all_produced) (start filesC).

(** Two acquisitions; the slicing tool leaves no output for the first. *)
Definition b0_of_dir98 : string := "/scratch/bids-synb0.k3/dir98_synb0_input/b0.nii.gz".
Definition no_b0_for_dir98 (p : string) : bool := negb (String.eqb p b0_of_dir98).
Definition filesD : gmap string file :=
  dataset [(a1, dwi_sidecar "j" (Some (5 # 100))); (b1, dwi_sidecar "j" (Some (5 # 100)))].
Definition runD : outcome unit * state :=
  main (args None) (world [a1; b1] no_b0_for_dir98) (start filesD).


(** A brain mask next to the T1w image in the input dataset itself. *)
Definition mask_name : string := "sub-01_ses-1_desc-brain_mask.json".
Definition mask_sidecar : sidecar :=
  <["Sources" := JArr [JStr "bids:raw:sub-01/ses-1/anat/sub-01_ses-1_T1w.nii.gz"]]> ∅.
Definition filesF : gmap string file :=
  <["/data/sub-01/ses-1/anat/" +:+ mask_name := FSidecar mask_sidecar]> filesA.
Definition worldF : World :=
  mkWorld [a1; a2] [t1w]
          (fun d => if String.eqb d "/data/sub-01/ses-1/anat"
                    then Some ["sub-01_ses-1_T1w.json"; mask_name; "sub-01_ses-1_T1w.nii.gz"]
                    else None)
          "/scratch/bids-synb0.k3" (fun p => p) true all_produced.

End Run.

(** * The claims *)


(** C2.  With the combine-all flag the script still groups by label and then
    rewrites the grouping: whatever the groups were, the result is exactly
    one group, keyed ["combined"], whose members are the members of the
    original groups concatenated in order, and these are the whole input. *)
Theorem C2_combine_all_single_group (dwi_images : list BIDSFile) (d : groups) :
  combine_all d = [("combined", concat (map snd d))]
  ∧ length (combine_all d) = 1%nat
  ∧ select_dwi_groups true dwi_images = combine_all (get_dwi_images dwi_images)
  ∧ select_dwi_groups false dwi_images = get_dwi_images dwi_images
  ∧ (∃ members, select_dwi_groups true dwi_images = [("combined", members)]
                ∧ members ≡ₚ dwi_images).
Proof.
  repeat split.
  exists (concat (map snd (get_dwi_images dwi_images))). split; [done|].
  apply (get_dwi_images_grouped dwi_images).
Qed.

(** C3.  Stripping or appending the trailing ['-'] is an involution on the
    four codes i, i-, j, j-, each of which has a file-name label; asking the
    label table for k or k- raises KeyError, and so does the script's
    inversion followed by the lookup when the direction is k or k-. *)
Theorem C3_axis_inversion_involutive :
  Forall (λ pe, ∃ inv, fmap_phase_encode_dir pe = Ret inv
                       ∧ fmap_phase_encode_dir inv = Ret pe
                       ∧ inv ≠ pe
                       ∧ ∃ label, fmap_phase_encode_label inv = Ret label)
         ["i"; "i-"; "j"; "j-"]
  ∧ fmap_phase_encode_label "k" = Raise (KeyError "k")
  ∧ fmap_phase_encode_label "k-" = Raise (KeyError "k-")
  ∧ (fmap_phase_encode_dir "k" = Ret "k-" ∧ fmap_phase_encode_dir "k-" = Ret "k").
Proof.
  split.
  - repeat constructor.
    + exists "i-". repeat split; [done|]. by exists "LR".
    + exists "i". repeat split; [done|]. by exists "RL".
    + exists "j-". repeat split; [done|]. by exists "AP".
    + exists "j". repeat split; [done|]. by exists "PA".
  - repeat split.
Qed.

(** ** Reading a whole group off the dataset *)

Section Cohorts.

Variables (args : Args) (w : World).
Variables (t1w_path : string) (t1w_skull_stripped_path : option string).

Lemma pe_of_ref files (dwi_ref : BIDSFile) o pe :
  files !! sidecar_path dwi_ref = Some (FSidecar o) →
  o !! "PhaseEncodingDirection" = Some (JStr pe) →
  pe_of files dwi_ref = Some (JStr pe).
Proof. unfold pe_of. by intros -> ->. Qed.

Lemma all_declare files pe (rest : list BIDSFile) :
  Forall (λ m, pe_of files m = Some (JStr pe)) rest →
  Forall (λ m, is_Some (pe_of files m)) rest ∧ forallb (pe_matches files pe) rest = true.
Proof.
  induction 1 as [|m rest Hm _ [IH1 IH2]]; [done|]. split.
  - constructor; [by rewrite Hm|done].
  - cbn [forallb]. rewrite IH2. unfold pe_matches. rewrite Hm.
    by rewrite (proj2 (py_eq_str pe (JStr pe)) eq_refl).
Qed.


(** A group whose members all declare [pe] reaches the readout-time step
    with the dataset untouched. *)
Lemma process_group_reaches_body group dwi_ref rest pe o st :
  fs st !! sidecar_path dwi_ref = Some (FSidecar o) →
  o !! "PhaseEncodingDirection" = Some (JStr pe) →
  Forall (λ m, pe_of (fs st) m = Some (JStr pe)) rest →
  process_group args w t1w_path t1w_skull_stripped_path (group, dwi_ref :: rest) st
  = group_body args w t1w_path t1w_skull_stripped_path group (dwi_ref :: rest) dwi_ref pe
      (add_out st (Print ("Running synb0 on group " +:+ group)
                   :: scan_log (fs st) pe dwi_ref rest
                   ++ [Print ("Phase encoding direction for group is " +:+ pe)])).
Proof.
  intros Hf Hpe Hrest. destruct (all_declare _ _ _ Hrest) as [Hsome Hall].
  apply process_group_consistent; [by eapply pe_of_ref|done|done].
Qed.

Lemma group_prelude_prints files group pe dwi_ref rest :
  forallb is_print (Print ("Running synb0 on group " +:+ group)
                    :: scan_log files pe dwi_ref rest
                    ++ [Print ("Phase encoding direction for group is " +:+ pe)]) = true.
Proof. cbn [forallb is_print andb]. by rewrite forallb_app, scan_log_prints. Qed.

End Cohorts.

(** The run ended in [sys.exit(1)] and the synthesis container was never
    started. *)
Definition exits_before_any_synthesis (r : outcome unit * state) : Prop :=
  r.1 = Raise (SystemExit 1) ∧ synthesis_invoked (out r.2) = false.

(** C4, as stated, fails on a run with two groups: the second group has no
    readout time in the reference sidecar and none is given on the command
    line, the run exits with code 1, and by then the synthesis container
    has already been started for the first group. *)
Lemma C4_exit_follows_earlier_synthesis :
  total_readout_time (Run.args None) = None
  ∧ (∃ o, Run.filesB !! sidecar_path Run.b1 = Some (FSidecar o)
          ∧ o !! "TotalReadoutTime" = None)
  ∧ Run.runB.1 = Raise (SystemExit 1)
  ∧ ¬ exits_before_any_synthesis Run.runB.
Proof.
  split; [done|]. split.
  - exists (Run.dwi_sidecar "j" None). by vm_compute.
  - split; [by vm_compute|]. intros [_ H]. by vm_compute in H.
Qed.

(** C4, amended.  For a group that passes the direction check, the readout
    time is resolved from the reference sidecar first: a value found there
    is the one handed to the staging step whatever the command line says;
    the command-line value is selected exactly when the sidecar has none;
    and when both are missing the run ends in [sys.exit(1)] having printed
    only: the synthesis container is started neither for this group nor for
    any later one, and the dataset is left as it was at the start of the
    group. *)
Theorem C4_readout_time_precedence (args : Args) (w : World) (t1w_path : string)
    (t1w_skull_stripped_path : option string) (group : string) (dwi_ref : BIDSFile)
    (rest : list BIDSFile) (pe : string) (o : sidecar) (later : groups) (st : state) :
  fs st !! sidecar_path dwi_ref = Some (FSidecar o) →
  o !! "PhaseEncodingDirection" = Some (JStr pe) →
  Forall (λ m, pe_of (fs st) m = Some (JStr pe)) rest →
  (∀ v, o !! "TotalReadoutTime" = Some v →
     resolve_total_readout_time args dwi_ref st = (Ret (v, false), st)
     ∧ ∃ log, forallb is_print log = true
         ∧ process_group args w t1w_path t1w_skull_stripped_path (group, dwi_ref :: rest) st
           = bind (stage_and_run args w group dwi_ref pe v t1w_path t1w_skull_stripped_path)
                  (λ _, write_fmap args w group (dwi_ref :: rest) dwi_ref pe)
                  (add_out st log))
  ∧ (∀ t, o !! "TotalReadoutTime" = None → total_readout_time args = Some t →
       resolve_total_readout_time args dwi_ref st
       = (Ret (JStr t, true), add_out st [no_readout_in_sidecar dwi_ref]))
  ∧ (∀ v st', resolve_total_readout_time args dwi_ref st = (Ret (v, true), st') →
       o !! "TotalReadoutTime" = None
       ∧ ∃ t, v = JStr t ∧ total_readout_time args = Some t)
  ∧ (o !! "TotalReadoutTime" = None → total_readout_time args = None →
       resolve_total_readout_time args dwi_ref st
       = (Raise (SystemExit 1), add_out st [no_readout_in_sidecar dwi_ref; no_readout_at_all])
       ∧ ∃ log, forallb is_print log = true
           ∧ run_groups args w t1w_path t1w_skull_stripped_path
               ((group, dwi_ref :: rest) :: later) st
             = (Raise (SystemExit 1), add_out st log)
           ∧ fs (add_out st log) = fs st
           ∧ synthesis_invoked (out (add_out st log)) = synthesis_invoked (out st)).
Proof.
  intros Hf Hpe Hrest.
  set (prelude := Print ("Running synb0 on group " +:+ group)
                  :: scan_log (fs st) pe dwi_ref rest
                  ++ [Print ("Phase encoding direction for group is " +:+ pe)]).
  assert (Hprelude : forallb is_print prelude = true)
    by apply group_prelude_prints.
  assert (Hbody :
    process_group args w t1w_path t1w_skull_stripped_path (group, dwi_ref :: rest) st
    = group_body args w t1w_path t1w_skull_stripped_path group (dwi_ref :: rest) dwi_ref pe
        (add_out st prelude)) by (by eapply process_group_reaches_body).
  split; [|split; [|split]].
  - intros v Hv. split; [by eapply resolve_from_sidecar|].
    exists prelude. split; [done|]. rewrite Hbody. unfold group_body.
    rewrite (bind_Ret _ _ _ _ _
               (resolve_from_sidecar args dwi_ref o v (add_out st prelude) Hf Hv)).
    cbn [fst snd]. by rewrite (bind_Ret (ret tt) _ _ tt _ eq_refl).
  - intros t Hnone Ht. by eapply resolve_from_override.
  - intros v st' Hres. destruct (o !! "TotalReadoutTime") as [v'|] eqn:E.
    { erewrite resolve_from_sidecar in Hres by done. congruence. }
    split; [done|]. destruct (total_readout_time args) as [t|] eqn:Et.
    + erewrite resolve_from_override in Hres by done. injection Hres as <- _. by exists t.
    + erewrite resolve_fatal in Hres by done. congruence.
  - intros Hnone Hov. split; [by eapply resolve_fatal|].
    exists (prelude ++ [no_readout_in_sidecar dwi_ref; no_readout_at_all]).
    assert (Hprints : forallb is_print
              (prelude ++ [no_readout_in_sidecar dwi_ref; no_readout_at_all]) = true)
      by (by rewrite forallb_app, Hprelude).
    split; [done|]. split; [|split; [done|]].
    + rewrite run_groups_cons, Hbody. unfold group_body.
      rewrite (bind_Raise _ _ _ _ _
                 (resolve_fatal args dwi_ref o (add_out st prelude) Hf Hnone Hov)).
      by rewrite add_out_add_out.
    + cbn [add_out out]. rewrite synthesis_invoked_app.
      rewrite (synthesis_invoked_prints _ Hprints). apply orb_false_r.
Qed.

Lemma C4_readout_time_precedence_witness :
  (run_groups (Run.args None) (Run.world [Run.a1; Run.b1] Run.all_produced) Run.t1w None
     [("dir99", [Run.b1])] (Run.start Run.filesB)).1
  = Raise (SystemExit 1).
Proof.
  destruct (C4_readout_time_precedence
              (Run.args None) (Run.world [Run.a1; Run.b1] Run.all_produced) Run.t1w None
              "dir99" Run.b1 [] "j" (Run.dwi_sidecar "j" None) [] (Run.start Run.filesB))
    as (_ & _ & _ & H).
  - vm_compute. reflexivity.
  - vm_compute. reflexivity.
  - constructor.
  - destruct H as [_ (log & _ & Hrun & _)]; [vm_compute; reflexivity|reflexivity|].
    rewrite Hrun. reflexivity.
Defined.

(** C5 (the code departs from it).  One group of two images whose sidecars
    have no readout time, run with the override ["0.05"]: the script stops
    with NameError in the first iteration of the backfill loop, the
    reference image's sidecar is left empty, the other image's sidecar is
    unchanged and still has no readout time, and synthesis is never
    started. *)
Theorem C5_backfill_fails_and_empties_reference :
  Run.runC.1 = Raise (NameError "fmap_sidecar")
  ∧ fs Run.runC.2 !! sidecar_path Run.a1 = Some FData
  ∧ fs Run.runC.2 !! sidecar_path Run.a2 = Some (FSidecar (Run.dwi_sidecar "j" None))
  ∧ Run.dwi_sidecar "j" None !! "TotalReadoutTime" = None
  ∧ synthesis_invoked (out Run.runC.2) = false.
Proof. by vm_compute. Qed.



(** ** The written sidecar *)

Definition overwritten_fields : list string :=
  ["IntendedFor"; "PhaseEncodingDirection"; "TotalReadoutTime"; "EffectiveEchoSpacing"].

Section WrittenSidecar.

Variables (session_label : string) (members : list BIDSFile) (dir : string) (o : sidecar).

Lemma edit_fmap_sidecar_intended :
  edit_fmap_sidecar session_label members dir o !! "IntendedFor"
  = Some (JArr (map JStr (fmap_intended_files session_label members))).
Proof. unfold edit_fmap_sidecar. by rewrite !lookup_insert_ne, lookup_insert_eq by done. Qed.

Lemma edit_fmap_sidecar_direction :
  edit_fmap_sidecar session_label members dir o !! "PhaseEncodingDirection" = Some (JStr dir).
Proof. unfold edit_fmap_sidecar. by rewrite !lookup_insert_ne, lookup_insert_eq by done. Qed.

Lemma edit_fmap_sidecar_readout :
  edit_fmap_sidecar session_label members dir o !! "TotalReadoutTime"
  = Some (JNum fmap_total_readout_time).
Proof. unfold edit_fmap_sidecar. by rewrite !lookup_insert_ne, lookup_insert_eq by done. Qed.

Lemma edit_fmap_sidecar_spacing :
  edit_fmap_sidecar session_label members dir o !! "EffectiveEchoSpacing"
  = Some (JNum fmap_effective_echo_spacing).
Proof. unfold edit_fmap_sidecar. by rewrite lookup_insert_eq. Qed.

Lemma edit_fmap_sidecar_frame k :
  k ∉ overwritten_fields →
  edit_fmap_sidecar session_label members dir o !! k = o !! k.
Proof.
  unfold overwritten_fields. rewrite !not_elem_of_cons. intros (? & ? & ? & ? & _).
  unfold edit_fmap_sidecar. by rewrite !lookup_insert_ne by done.
Qed.

End WrittenSidecar.

(** C7.  A group that goes through every step (one shared direction with a
    label, readout time in the reference sidecar, every tool output
    present): the iteration returns normally and the sidecar it leaves next
    to the synthesized volume is the reference image's sidecar with four
    fields set, IntendedFor to the members' paths under the session,
    PhaseEncodingDirection to the inverted code, TotalReadoutTime to the
    positive constant 1e-7, EffectiveEchoSpacing to 0, and every other key
    bound exactly as in the reference sidecar. *)
Theorem C7_fmap_sidecar_overwrites_four_fields (args : Args) (w : World) (t1w_path : string)
    (t1w_skull_stripped_path : option string) (group : string) (dwi_ref : BIDSFile)
    (rest : list BIDSFile) (pe dir label : string) (vec : list Z) (o : sidecar) (v : json)
    (st : state) :
  fs st !! sidecar_path dwi_ref = Some (FSidecar o) →
  o !! "PhaseEncodingDirection" = Some (JStr pe) →
  Forall (λ m, pe_of (fs st) m = Some (JStr pe)) rest →
  o !! "TotalReadoutTime" = Some v →
  phase_encode_vectors !! pe = Some vec →
  fmap_phase_encode_dir pe = Ret dir →
  fmap_phase_encode_label dir = Ret label →
  produced w (b0_input w group) = true →
  t1_available w (fs st) t1w_path t1w_skull_stripped_path →
  singularity_found w = true →
  produced w (PyStr.path_join (tmp_output_dir w group) ["b0_u.nii.gz"]) = true →
  sidecar_path dwi_ref ≠ fmap_volume_path args group label →
  ∃ st' written,
    process_group args w t1w_path t1w_skull_stripped_path (group, dwi_ref :: rest) st
    = (Ret tt, st')
    ∧ fs st' !! fmap_sidecar_path args group label = Some (FSidecar written)
    ∧ written = edit_fmap_sidecar (session_label args) (dwi_ref :: rest) dir o
    ∧ written !! "IntendedFor"
      = Some (JArr (map (λ m, JStr (PyStr.path_join ("ses-" +:+ session_label args)
                                       ["dwi"; filename m]))
                        (dwi_ref :: rest)))
    ∧ written !! "PhaseEncodingDirection" = Some (JStr dir)
    ∧ written !! "TotalReadoutTime" = Some (JNum fmap_total_readout_time)
    ∧ (0 < fmap_total_readout_time)%Q
    ∧ written !! "EffectiveEchoSpacing" = Some (JNum 0)
    ∧ (∀ k, k ∉ overwritten_fields → written !! k = o !! k).
Proof.
  intros Hf Hpe Hrest Hv Hvec Hdir Hlabel Hb0 Ht1 Hsing Hb0u Hne.
  eexists _, (edit_fmap_sidecar (session_label args) (dwi_ref :: rest) dir o).
  split; [|split; [|split; [done|]]].
  - erewrite process_group_reaches_body by done. unfold group_body.
    erewrite bind_Ret by (by eapply resolve_from_sidecar).
    cbn [fst snd]. erewrite (bind_Ret (ret tt)) by reflexivity.
    erewrite bind_Ret by (by eapply stage_and_run_ok).
    by eapply write_fmap_ok.
  - cbn [fs]. by rewrite lookup_insert_eq.
  - split; [|split; [|split; [|split; [done|split]]]].
    + rewrite edit_fmap_sidecar_intended. unfold fmap_intended_files.
      by rewrite map_map.
    + apply edit_fmap_sidecar_direction.
    + apply edit_fmap_sidecar_readout.
    + apply edit_fmap_sidecar_spacing.
    + apply edit_fmap_sidecar_frame.
Qed.

Lemma C7_fmap_sidecar_overwrites_four_fields_witness :
  ∃ st' written,
    process_group (Run.args None) (Run.world [Run.a1; Run.a2] Run.all_produced) Run.t1w None
      ("dir98", [Run.a1; Run.a2]) (Run.start Run.filesA) = (Ret tt, st')
    ∧ fs st' !! "/data/sub-01/ses-1/fmap/sub-01_ses-1_acq-dir98synb0_dir-AP_epi.json"
      = Some (FSidecar written)
    ∧ written !! "EchoTime" = Some (JNum (89 # 1000)).
Proof.
  destruct (C7_fmap_sidecar_overwrites_four_fields
              (Run.args None) (Run.world [Run.a1; Run.a2] Run.all_produced) Run.t1w None
              "dir98" Run.a1 [Run.a2] "j" "j-" "AP" [0; 1; 0]%Z
              (Run.dwi_sidecar "j" (Some (5 # 100))) (JNum (5 # 100))
              (Run.start Run.filesA))
    as (st' & written & Hrun & Hfile & _ & _ & _ & _ & _ & _ & Hframe).
  - vm_compute. reflexivity.
  - vm_compute. reflexivity.
  - repeat constructor.
  - vm_compute. reflexivity.
  - vm_compute. reflexivity.
  - reflexivity.
  - reflexivity.
  - reflexivity.
  - vm_compute. eexists. reflexivity.
  - reflexivity.
  - reflexivity.
  - vm_compute. discriminate.
  - exists st', written. split; [exact Hrun|]. split; [exact Hfile|].
    rewrite Hframe; [vm_compute; reflexivity|].
    unfold overwritten_fields. rewrite !not_elem_of_cons.
    repeat split; try discriminate. apply not_elem_of_nil.
Defined.

(** C8.  Two images of acquisition dir98 with direction j, subject 01,
    session 1: they form one group, the run completes, the volume is
    written as sub-01_ses-1_acq-dir98synb0_dir-AP_epi.nii.gz and the sidecar
    next to it has PhaseEncodingDirection "j-".  In general the volume is
    named sub-P_ses-S_acq-GROUPsynb0_dir-LABEL_epi.nii.gz, where the group
    text is left out for the group "noacq", and the sidecar has the same
    name ending in .json when no label contains a dot. *)
Theorem C8_fmap_file_name_pattern :
  (select_dwi_groups false [Run.a1; Run.a2] = [("dir98", [Run.a1; Run.a2])]
   ∧ fmap_phase_encode_dir "j" = Ret "j-"
   ∧ fmap_phase_encode_label "j-" = Ret "AP"
   ∧ fmap_file_name "01" "1" "dir98" "AP" = "sub-01_ses-1_acq-dir98synb0_dir-AP_epi.nii.gz"
   ∧ fmap_sidecar_file (fmap_file_name "01" "1" "dir98" "AP")
     = "sub-01_ses-1_acq-dir98synb0_dir-AP_epi.json")
  ∧ (Run.runA.1 = Ret tt
     ∧ fs Run.runA.2 !! "/data/sub-01/ses-1/fmap/sub-01_ses-1_acq-dir98synb0_dir-AP_epi.nii.gz"
       = Some FData
     ∧ ∃ written,
         fs Run.runA.2 !! "/data/sub-01/ses-1/fmap/sub-01_ses-1_acq-dir98synb0_dir-AP_epi.json"
         = Some (FSidecar written)
         ∧ written !! "PhaseEncodingDirection" = Some (JStr "j-"))
  ∧ (∀ participant_label session_label group label,
       fmap_file_name participant_label session_label group label
       = "sub-" +:+ participant_label +:+ "_ses-" +:+ session_label +:+ "_acq-"
         +:+ (if String.eqb group "noacq" then "" else group)
         +:+ "synb0_dir-" +:+ label +:+ "_epi.nii.gz")
  ∧ (∀ participant_label session_label label,
       fmap_file_name participant_label session_label "noacq" label
       = "sub-" +:+ participant_label +:+ "_ses-" +:+ session_label
         +:+ "_acq-synb0_dir-" +:+ label +:+ "_epi.nii.gz")
  ∧ (∀ participant_label session_label group label,
       no_dot participant_label = true → no_dot session_label = true →
       no_dot group = true → no_dot label = true →
       fmap_sidecar_file (fmap_file_name participant_label session_label group label)
       = "sub-" +:+ participant_label +:+ "_ses-" +:+ session_label +:+ "_acq-"
         +:+ (if String.eqb group "noacq" then "" else group)
         +:+ "synb0_dir-" +:+ label +:+ "_epi.json").
Proof.
  split; [by vm_compute|]. split.
  { split; [by vm_compute|]. split; [by vm_compute|].
    eexists. split; [vm_compute; reflexivity|]. by vm_compute. }
  split; [|split].
  - intros P S group label. unfold fmap_file_name.
    by destruct (String.eqb group "noacq").
  - done.
  - intros P S group label HP HS HG HL.
    rewrite fmap_sidecar_file_stem by done. unfold fmap_stem.
    rewrite !str_app_assoc. reflexivity.
Qed.

(** ** The slicing step *)

(** The loop has printed that it starts on [group]. *)
Definition group_started (group : string) (evs : list event) : bool :=
  existsb (fun e => match e with
                    | Print s => String.eqb s ("Running synb0 on group " +:+ group)
                    | _ => false
                    end) evs.

(** C9, as stated, fails on a run with two groups in which the slicing tool
    leaves no output for the first: the run ends there with exit code 1 and
    the second group is never started. *)
Lemma C9_missing_b0_stops_later_groups :
  select_dwi_groups false [Run.a1; Run.b1] = [("dir98", [Run.a1]); ("dir99", [Run.b1])]
  ∧ produced (Run.world [Run.a1; Run.b1] Run.no_b0_for_dir98)
      (b0_input (Run.world [Run.a1; Run.b1] Run.no_b0_for_dir98) "dir98") = false
  ∧ Run.runD.1 = Raise (SystemExit 1)
  ∧ group_started "dir98" (out Run.runD.2) = true
  ∧ ¬ (group_started "dir99" (out Run.runD.2) = true).
Proof.
  split; [by vm_compute|]. split; [by vm_compute|]. split; [by vm_compute|].
  split; [by vm_compute|]. intros H. by vm_compute in H.
Qed.

(** C9, amended.  After the slicing tool has been run, what happens next
    depends only on whether its output file is there: if it is, the
    iteration goes on; if it is not, for a group that got as far as the
    slicing step the script prints that the b0 image could not be extracted
    and the whole run ends in [sys.exit(1)], with the dataset unchanged, the
    synthesis container not started for this group, and no later group
    processed. *)
Theorem C9_missing_b0_ends_the_run (args : Args) (w : World) (t1w_path : string)
    (t1w_skull_stripped_path : option string) (group : string) (dwi_ref : BIDSFile)
    (rest : list BIDSFile) (pe : string) (o : sidecar) (v : json) (later : groups)
    (st : state) :
  fs st !! sidecar_path dwi_ref = Some (FSidecar o) →
  o !! "PhaseEncodingDirection" = Some (JStr pe) →
  Forall (λ m, pe_of (fs st) m = Some (JStr pe)) rest →
  o !! "TotalReadoutTime" = Some v →
  (∀ st0, extract_b0 w group dwi_ref st0
          = if produced w (b0_input w group)
            then (Ret tt, add_out st0 [fslroi_call w group dwi_ref])
            else (Raise (SystemExit 1),
                  add_out st0 [fslroi_call w group dwi_ref;
                               Print ("Could not extract b0 image from " +:+ path dwi_ref)]))
  ∧ (produced w (b0_input w group) = false →
     ∃ log,
       run_groups args w t1w_path t1w_skull_stripped_path
         ((group, dwi_ref :: rest) :: later) st
       = (Raise (SystemExit 1),
          add_out st (log ++ [fslroi_call w group dwi_ref;
                              Print ("Could not extract b0 image from " +:+ path dwi_ref)]))
       ∧ synthesis_invoked (log ++ [fslroi_call w group dwi_ref]) = false
       ∧ fs (add_out st (log ++ [fslroi_call w group dwi_ref;
                                 Print ("Could not extract b0 image from " +:+ path dwi_ref)]))
         = fs st).
Proof.
  intros Hf Hpe Hrest Hv. split.
  - intros st0. destruct (produced w (b0_input w group)) eqn:Hp.
    + by apply extract_b0_present.
    + by apply extract_b0_missing.
  - intros Hp.
    set (prelude := Print ("Running synb0 on group " +:+ group)
                    :: scan_log (fs st) pe dwi_ref rest
                    ++ [Print ("Phase encoding direction for group is " +:+ pe)]).
    exists (prelude ++ [MakeDirs (tmp_input_dir w group); MakeDirs (tmp_output_dir w group);
                        MakeDirs (tmp_singularity_dir w group)]).
    split; [|split; [|done]].
    + rewrite run_groups_cons.
      erewrite process_group_reaches_body by done. fold prelude. unfold group_body.
      rewrite (bind_Ret _ _ _ _ _
                 (resolve_from_sidecar args dwi_ref o v (add_out st prelude) Hf Hv)).
      cbn [fst snd]. rewrite (bind_Ret (ret tt) _ _ tt _ eq_refl).
      unfold stage_and_run.
      rewrite (bind_Raise _ _ (add_out st prelude) (SystemExit 1)
                 (add_out st ((prelude ++ [MakeDirs (tmp_input_dir w group);
                                           MakeDirs (tmp_output_dir w group);
                                           MakeDirs (tmp_singularity_dir w group)])
                              ++ [fslroi_call w group dwi_ref;
                                  Print ("Could not extract b0 image from "
                                         +:+ path dwi_ref)]))); [done|].
      erewrite bind_Ret by apply emit_eq.
      erewrite bind_Ret by apply emit_eq.
      erewrite bind_Ret by apply emit_eq.
      erewrite bind_Raise by (by apply extract_b0_missing).
      by rewrite !add_out_add_out, <- !(assoc_L (++)).
    + rewrite !synthesis_invoked_app.
      rewrite (synthesis_invoked_prints prelude) by apply group_prelude_prints.
      done.
Qed.

Lemma C9_missing_b0_ends_the_run_witness :
  (run_groups (Run.args None) (Run.world [Run.a1; Run.b1] Run.no_b0_for_dir98) Run.t1w None
     [("dir98", [Run.a1]); ("dir99", [Run.b1])] (Run.start Run.filesD)).1
  = Raise (SystemExit 1).
Proof.
  destruct (C9_missing_b0_ends_the_run
              (Run.args None) (Run.world [Run.a1; Run.b1] Run.no_b0_for_dir98) Run.t1w None
              "dir98" Run.a1 [] "j" (Run.dwi_sidecar "j" (Some (5 # 100))) (JNum (5 # 100))
              [("dir99", [Run.b1])] (Run.start Run.filesD))
    as [_ H].
  - vm_compute. reflexivity.
  - vm_compute. reflexivity.
  - constructor.
  - vm_compute. reflexivity.
  - destruct H as (log & Hrun & _); [vm_compute; reflexivity|].
    rewrite Hrun. reflexivity.
Defined.

(** C10.  With no mask dataset on the command line the search runs over the
    anat directory of the input dataset itself: the first listed
    [_mask.json] sidecar whose [Sources[0]] ends with the T1w file name is
    used to skull-strip the image, and only when no sidecar is selected does
    the script report that no mask was found and return nothing, which is
    what leaves the synthesis call without [--stripped]. *)
Theorem C10_mask_search_falls_back_to_input_dataset (args : Args) (w : World)
    (t1w_path t1w_filename : string) (names : list string) (st : state) :
  t1w_mask_dataset args = None →
  listdir w (anat_dir args (bids_dataset args)) = Some names →
  Forall (λ n, is_Some (mask_source (fs st) (anat_dir args (bids_dataset args)) n))
         (mask_candidates names) →
  resolve_brain_mask args w t1w_path t1w_filename st
  = match List.find (mask_selects (fs st) (anat_dir args (bids_dataset args)) t1w_filename)
            (mask_candidates names) with
    | Some n =>
        (Ret (Some (skull_stripped_file w)),
         add_out st
           [Print ("Using T1w mask " +:+ mask_volume (anat_dir args (bids_dataset args)) n);
            Subprocess ["fslmaths"; t1w_path; "-mas";
                        mask_volume (anat_dir args (bids_dataset args)) n;
                        skull_stripped_file w]])
    | None => (Ret None, add_out st [no_mask_found args])
    end
  ∧ anat_dir args (bids_dataset args)
    = PyStr.path_join (bids_dataset args)
        ["sub-" +:+ participant_label args; "ses-" +:+ session_label args; "anat"]
  ∧ (∀ group,
       synb0_cmd_list args w group true = synb0_cmd_list args w group false ++ ["--stripped"]).
Proof.
  intros Hnone Hls Hwf. split; [|split; [done|]].
  - pose proof (get_t1w_skull_stripped_eq args w (bids_dataset args) t1w_path t1w_filename
                  names st Hls Hwf) as Hsearch.
    unfold resolve_brain_mask. rewrite Hnone.
    destruct (List.find _ _) as [n|].
    + by rewrite (bind_Ret _ _ _ _ _ Hsearch).
    + rewrite (bind_Ret _ _ _ _ _ Hsearch). fold (no_mask_found args).
      by erewrite bind_Ret by apply print_eq.
  - intros group. unfold synb0_cmd_list. by rewrite app_nil_r.
Qed.

Lemma C10_mask_search_falls_back_to_input_dataset_witness :
  ∃ st',
    resolve_brain_mask (Run.args None) Run.worldF Run.t1w (basename Run.t1w)
      (Run.start Run.filesF)
    = (Ret (Some "/scratch/bids-synb0.k3/t1w_skull_stripped.nii.gz"), st')
    ∧ out st'
      = [Print "Using T1w mask /data/sub-01/ses-1/anat/sub-01_ses-1_desc-brain_mask.nii.gz";
         Subprocess ["fslmaths"; Run.t1w; "-mas";
                     "/data/sub-01/ses-1/anat/sub-01_ses-1_desc-brain_mask.nii.gz";
                     "/scratch/bids-synb0.k3/t1w_skull_stripped.nii.gz"]].
Proof.
  destruct (C10_mask_search_falls_back_to_input_dataset
              (Run.args None) Run.worldF Run.t1w (basename Run.t1w)
              ["sub-01_ses-1_T1w.json"; Run.mask_name; "sub-01_ses-1_T1w.nii.gz"]
              (Run.start Run.filesF))
    as (Hmask & _ & _).
  - reflexivity.
  - vm_compute. reflexivity.
  - vm_compute. repeat constructor. eexists. reflexivity.
  - eexists. split; [rewrite Hmask; vm_compute; reflexivity|]. reflexivity.
Defined.

(** * Further properties of the script *)

(** ** Before the loop: the filter file and the T1w image *)

(** What the script prints once the T1w image is settled (lines 190-192). *)
Definition banner (args : Args) (w : World) (t1w_path : string) : list event :=
  [Print ("Processing subject " +:+ participant_label args
          +:+ " session " +:+ session_label args);
   Print ("T1w: " +:+ t1w_path);
   PrintGroups (select_dwi_groups (combine_all_dwis args) (dwi_images w))].

Section Preamble.

Variables (args : Args) (w : World).

(** With one T1w image that exists, the script prints its banner, resolves
    the brain mask once, and then loops over the groups. *)
Lemma main_reaches_groups t1w_path st :
  filter args = None →
  t1w_files args w = [t1w_path] →
  is_Some (fs st !! t1w_path) →
  main args w st
  = bind (resolve_brain_mask args w t1w_path (basename t1w_path))
         (λ sk, run_groups args w t1w_path sk
                  (select_dwi_groups (combine_all_dwis args) (dwi_images w)))
         (add_out st (banner args w t1w_path)).
Proof.
  intros Hfilter Hfiles [f Hf]. unfold main. rewrite Hfilter, Hfiles.
  rewrite (bind_Ret (ret tt) _ st tt st eq_refl). cbn [length Nat.ltb Nat.leb].
  unfold bind at 1. unfold get_fs at 1. rewrite Hf.
  erewrite bind_Ret by apply print_eq.
  erewrite bind_Ret by apply print_eq.
  erewrite bind_Ret by apply emit_eq.
  by rewrite !add_out_add_out.
Qed.

End Preamble.

(** X1.  The [--filter] option can never succeed: [bids_filter] raises for
    every argument, so a run with a filter file stops before it prints,
    runs or writes anything. *)
Theorem X1_filter_option_always_raises (args : Args) (w : World) (st : state)
    (value : string) :
  filter args = Some value →
  main args w st
  = (Raise (if String.eqb value ""
            then Exception ("Unable to load BIDS filter file " +:+ value)
            else NameError "Path"),
     st).
Proof.
  intros Hfilter. unfold main. rewrite Hfilter. unfold bind, bids_filter.
  by destruct (String.eqb value "").
Qed.

Lemma X1_filter_option_always_raises_witness :
  main (mkArgs "synb0.sif" "/data" "01" "1" (Some "filter.json") None false None None)
       (Run.world [Run.a1; Run.a2] Run.all_produced) (Run.start Run.filesA)
  = (Raise (NameError "Path"), Run.start Run.filesA).
Proof.
  exact (X1_filter_option_always_raises
           (mkArgs "synb0.sif" "/data" "01" "1" (Some "filter.json") None false None None)
           (Run.world [Run.a1; Run.a2] Run.all_produced) (Run.start Run.filesA)
           "filter.json" eq_refl).
Defined.



(** ** The string primitives, against their meaning *)

Section StringFacts.

Lemma str_cons_app (c : ascii) (a b : string) : String c a +:+ b = String c (a +:+ b).
Proof. done. Qed.

Lemma str_app_nil_r (a : string) : a +:+ "" = a.
Proof. induction a as [|c a IH]; [done|]. by rewrite str_cons_app, IH. Qed.

Lemma endswith_spec (s suf : string) :
  PyStr.endswith s suf = true ↔ ∃ p, s = p +:+ suf.
Proof.
  induction s as [|c s IH]; cbn [PyStr.endswith].
  - rewrite orb_false_r, String.eqb_eq. split.
    + intros <-. by exists "".
    + intros [[|c p] Hp]; [done|]. by rewrite str_cons_app in Hp.
  - rewrite orb_true_iff, String.eqb_eq, IH. split.
    + intros [<-|[p ->]]; [by exists ""|]. by exists (String c p).
    + intros [[|c' p] Hp]; [by left|]. right.
      rewrite str_cons_app in Hp. injection Hp as -> ->. by exists p.
Qed.

Lemma has_slash_app (a b : string) : has_slash (a +:+ b) = has_slash a || has_slash b.
Proof.
  unfold has_slash. induction a as [|c a IH]; [done|].
  rewrite str_cons_app. cbn [list_ascii_of_string existsb]. by rewrite IH, orb_assoc.
Qed.

Lemma basename_no_slash (s : string) : has_slash s = false → basename s = s.
Proof.
  destruct s as [|c s]; [done|]. unfold has_slash.
  cbn [list_ascii_of_string existsb basename]. intros [-> Hs]%orb_false_elim.
  fold (has_slash s) in Hs. by rewrite Hs.
Qed.

Lemma basename_after_slash (x name : string) :
  has_slash name = false → basename (x +:+ "/" +:+ name) = name.
Proof.
  intros Hname. induction x as [|c x IH].
  - change ("" +:+ "/" +:+ name) with (String "/" name).
    cbn [basename]. rewrite Ascii.eqb_refl. by apply basename_no_slash.
  - rewrite str_cons_app. cbn [basename]. destruct (Ascii.eqb c "/"); [done|].
    rewrite has_slash_app. change (has_slash ("/" +:+ name)) with true.
    by rewrite orb_true_r.
Qed.

Lemma endswith_slash_last (s : string) :
  PyStr.endswith s "/" = true → PyStr.last_char s = Some "/"%char.
Proof.
  intros [p ->]%endswith_spec. induction p as [|c p IH]; [done|].
  rewrite str_cons_app. cbn [PyStr.last_char].
  destruct (p +:+ "/") eqn:E; [by destruct p|done].
Qed.

Lemma last_char_app (a : string) (c : ascii) (b : string) :
  PyStr.last_char (a +:+ String c b) = PyStr.last_char (String c b).
Proof.
  induction a as [|x a IH]; [done|].
  rewrite str_cons_app. cbn [PyStr.last_char].
  destruct (a +:+ String c b) eqn:E; [by destruct a|]. exact IH.
Qed.

(** Joining a relative, non-empty component onto a path that does not end
    in a slash puts one slash between them. *)
Lemma path_join2_plain (a : string) (c : ascii) (b : string) :
  PyStr.last_char a ≠ None → PyStr.last_char a ≠ Some "/"%char → c ≠ "/"%char →
  PyStr.path_join2 a (String c b) = a +:+ "/" +:+ String c b.
Proof.
  intros Hne Hlast Hc. unfold PyStr.path_join2. cbn [String.prefix].
  destruct (ascii_dec "/" c) as [<-|_]; [done|].
  destruct (String.eqb_spec a "") as [->|_]; [done|]. cbn [orb].
  destruct (PyStr.endswith a "/") eqn:E; [|done].
  by apply endswith_slash_last in E.
Qed.

End StringFacts.


Section AnatDir.

Variables (args : Args).

Lemma path_join2_anat_last (x : string) :
  PyStr.last_char (PyStr.path_join2 x "anat") = Some "t"%char.
Proof.
  unfold PyStr.path_join2. cbn [String.prefix].
  destruct (ascii_dec "/" "a") as [?|_]; [done|].
  destruct (String.eqb x "" || PyStr.endswith x "/").
  - exact (last_char_app x "a" "nat").
  - exact (last_char_app x "/" "anat").
Qed.

Lemma anat_dir_last (dataset : string) :
  PyStr.last_char (anat_dir args dataset) = Some "t"%char.
Proof. unfold anat_dir, PyStr.path_join. cbn [fold_left]. apply path_join2_anat_last. Qed.

Lemma anat_dir_join (dataset : string) (c : ascii) (name : string) :
  c ≠ "/"%char →
  PyStr.path_join dataset [sub_dir args; ses_dir args; "anat"; String c name]
  = anat_dir args dataset +:+ "/" +:+ String c name.
Proof.
  intros Hc.
  change (PyStr.path_join dataset [sub_dir args; ses_dir args; "anat"; String c name])
    with (PyStr.path_join2 (anat_dir args dataset) (String c name)).
  apply path_join2_plain; [| |done]; rewrite anat_dir_last; congruence.
Qed.

End AnatDir.

(** X4.  With [--t1w-image-suffix] the T1w query of the dataset index is
    not consulted: there is exactly one candidate, the file
    sub-P_ses-S_SUFFIX in the anat directory of the input dataset, and
    (labels and suffix being free of slashes) that file name is what mask
    sidecars are matched against. *)
Theorem X4_t1w_suffix_gives_one_candidate (args : Args) (w : World) (suffix : string) :
  t1w_image_suffix args = Some suffix →
  has_slash (participant_label args) = false →
  has_slash (session_label args) = false →
  has_slash suffix = false →
  t1w_files args w
  = [anat_dir args (bids_dataset args) +:+ "/" +:+ "sub-" +:+ participant_label args
     +:+ "_ses-" +:+ session_label args +:+ "_" +:+ suffix]
  ∧ (∀ p, head (t1w_files args w) = Some p →
          basename p = "sub-" +:+ participant_label args +:+ "_ses-"
                       +:+ session_label args +:+ "_" +:+ suffix).
Proof.
  intros Hsuffix HP HS Hsuf.
  assert (Hfiles : t1w_files args w
    = [anat_dir args (bids_dataset args) +:+ "/" +:+ "sub-" +:+ participant_label args
       +:+ "_ses-" +:+ session_label args +:+ "_" +:+ suffix]).
  { unfold t1w_files. rewrite Hsuffix. f_equal.
    by apply (anat_dir_join args (bids_dataset args) "s"
                ("ub-" +:+ participant_label args +:+ "_ses-" +:+ session_label args
                 +:+ "_" +:+ suffix)). }
  split; [done|]. intros p. rewrite Hfiles. intros [= <-].
  apply basename_after_slash. rewrite !has_slash_app, HP, HS, Hsuf. done.
Qed.

Lemma X4_t1w_suffix_gives_one_candidate_witness :
  t1w_files (mkArgs "synb0.sif" "/data" "01" "1" None None false
               (Some "acq-mprage_T1w.nii.gz") None)
            (Run.world [Run.a1] Run.all_produced)
  = ["/data/sub-01/ses-1/anat/sub-01_ses-1_acq-mprage_T1w.nii.gz"].
Proof.
  destruct (X4_t1w_suffix_gives_one_candidate
              (mkArgs "synb0.sif" "/data" "01" "1" None None false
                 (Some "acq-mprage_T1w.nii.gz") None)
              (Run.world [Run.a1] Run.all_produced) "acq-mprage_T1w.nii.gz")
    as [H _]; [reflexivity|reflexivity|reflexivity|reflexivity|].
  rewrite H. reflexivity.
Defined.

(** ** Edge cases of the direction check *)

Section ScanEdges.

Lemma foldM_app {A B} (body : A → B → M B) (a b : list A) (acc : B) (st : state) :
  foldM body (a ++ b) acc st = bind (foldM body a acc) (foldM body b) st.
Proof.
  revert acc st. induction a as [|x a IH]; intros acc st; [done|].
  cbn [app foldM]. unfold bind in *.
  destruct (body x acc st) as [[acc'|e] st']; [|done]. apply IH.
Qed.

Lemma check_missing_direction (dwi_image : BIDSFile) o acc st :
  fs st !! sidecar_path dwi_image = Some (FSidecar o) →
  o !! "PhaseEncodingDirection" = None →
  check_pe_direction dwi_image acc st
  = (Raise (KeyError "PhaseEncodingDirection"),
     add_out st [Print ("Checking phase encoding direction for " +:+ filename dwi_image)]).
Proof.
  intros Hf Ho. unfold check_pe_direction.
  erewrite bind_Ret by apply print_eq.
  rewrite (bind_Ret _ _ _ (LObj o) (add_out st [Print _])) by by apply json_load_sidecar.
  destruct acc as [[] ok]; cbn [fst snd]; unfold bind, getitem; by rewrite Ho.
Qed.

(** Members that all declare a string let the scan run to its end. *)
Lemma scan_returns (members : list BIDSFile) st :
  Forall (λ m, ∃ s, pe_of (fs st) m = Some (JStr s)) members →
  ∃ acc log,
    foldM check_pe_direction members (JNull, true) st = (Ret acc, add_out st log)
    ∧ forallb is_print log = true.
Proof.
  intros Hall. destruct members as [|dwi_ref rest].
  - exists (JNull, true), []. by rewrite add_out_nil.
  - apply Forall_cons in Hall as [[pe Href] Hrest].
    eexists _, _. split.
    + apply (scan_pe_directions_eq dwi_ref rest pe st Href).
      eapply Forall_impl; [exact Hrest|]. intros m [s ->]. by eexists.
    + apply scan_log_prints.
Qed.

End ScanEdges.

(** X5.  No DWI image at all: without [--combine-all-dwis] there is no
    group and the loop does nothing; with it there is one empty group
    "combined", and the loop stops with TypeError when it prints the
    group's direction, which is still None. *)
Theorem X5_no_dwi_images (args : Args) (w : World) (t1w_path : string)
    (t1w_skull_stripped_path : option string) (st : state) :
  run_groups args w t1w_path t1w_skull_stripped_path (select_dwi_groups false []) st
  = (Ret tt, st)
  ∧ run_groups args w t1w_path t1w_skull_stripped_path (select_dwi_groups true []) st
    = (Raise TypeError, add_out st [Print "Running synb0 on group combined"]).
Proof.
  split; [done|].
  change (select_dwi_groups true []) with [("combined", @nil BIDSFile)].
  rewrite run_groups_cons. unfold process_group. cbn [fst snd].
  erewrite bind_Ret by apply print_eq.
  unfold scan_pe_directions. cbn [foldM].
  by erewrite bind_Ret by reflexivity.
Qed.

(** X6.  A member whose sidecar has no PhaseEncodingDirection is not
    treated as a mismatch: when every member before it declares a
    direction, the check reaches it and KeyError ends the whole run, later
    groups included, before any tool is run or anything is written. *)
Theorem X6_missing_direction_aborts_run (args : Args) (w : World) (t1w_path : string)
    (t1w_skull_stripped_path : option string) (group : string)
    (before : list BIDSFile) (dwi_image : BIDSFile) (after : list BIDSFile)
    (o : sidecar) (later : groups) (st : state) :
  Forall (λ m, ∃ s, pe_of (fs st) m = Some (JStr s)) before →
  fs st !! sidecar_path dwi_image = Some (FSidecar o) →
  o !! "PhaseEncodingDirection" = None →
  ∃ log,
    run_groups args w t1w_path t1w_skull_stripped_path
      ((group, before ++ dwi_image :: after) :: later) st
    = (Raise (KeyError "PhaseEncodingDirection"), add_out st log)
    ∧ forallb is_print log = true
    ∧ fs (add_out st log) = fs st.
Proof.
  intros Hbefore Hf Ho.
  destruct (scan_returns before
              (add_out st [Print ("Running synb0 on group " +:+ group)]) Hbefore)
    as (acc & log & Hscan & Hlog).
  exists ([Print ("Running synb0 on group " +:+ group)] ++ log
          ++ [Print ("Checking phase encoding direction for " +:+ filename dwi_image)]).
  split; [|split; [|done]].
  - rewrite run_groups_cons. unfold process_group. cbn [fst snd].
    erewrite bind_Ret by apply print_eq.
    unfold scan_pe_directions. erewrite bind_Raise; [done|].
    rewrite foldM_app. rewrite (bind_Ret _ _ _ _ _ Hscan). cbn [foldM].
    erewrite bind_Raise; [|by eapply check_missing_direction].
    by rewrite !add_out_add_out.
  - by rewrite !forallb_app, Hlog.
Qed.

Lemma X6_missing_direction_aborts_run_witness :
  ∃ st',
    run_groups (Run.args None) (Run.world [Run.a1; Run.a2] Run.all_produced) Run.t1w None
      [("dir98", [Run.a1; Run.a2])]
      (Run.start (<[sidecar_path Run.a2 := FSidecar ∅]> Run.filesA))
    = (Raise (KeyError "PhaseEncodingDirection"), st').
Proof.
  destruct (X6_missing_direction_aborts_run
              (Run.args None) (Run.world [Run.a1; Run.a2] Run.all_produced) Run.t1w None
              "dir98" [Run.a1] Run.a2 [] ∅ []
              (Run.start (<[sidecar_path Run.a2 := FSidecar ∅]> Run.filesA)))
    as (log & Hrun & _).
  - repeat constructor. exists "j". vm_compute. reflexivity.
  - vm_compute. reflexivity.
  - reflexivity.
  - eexists. exact Hrun.
Defined.

(** ** A group at the staging step *)

(** What a group has printed when it leaves the direction check. *)
Definition prelude_log (files : gmap string file) (group pe : string) (dwi_ref : BIDSFile)
    (rest : list BIDSFile) : list event :=
  Print ("Running synb0 on group " +:+ group)
  :: scan_log files pe dwi_ref rest
  ++ [Print ("Phase encoding direction for group is " +:+ pe)].

(** A group that gets as far as the acquisition-parameter file: one
    direction [pe] throughout, a readout time [v] in the reference sidecar
    [o], the b0 volume extracted and a T1w image to stage. *)
Record group_staged (w : World) (t1w_path : string) (t1w_skull_stripped_path : option string)
    (group : string) (dwi_ref : BIDSFile) (rest : list BIDSFile) (pe : string)
    (o : sidecar) (v : json) (files : gmap string file) : Prop := {
  staged_sidecar : files !! sidecar_path dwi_ref = Some (FSidecar o);
  staged_direction : o !! "PhaseEncodingDirection" = Some (JStr pe);
  staged_rest : Forall (λ m, pe_of files m = Some (JStr pe)) rest;
  staged_readout : o !! "TotalReadoutTime" = Some v;
  staged_b0 : produced w (b0_input w group) = true;
  staged_t1 : t1_available w files t1w_path t1w_skull_stripped_path
}.

(** The events of lines 292-310. *)
Definition staging_log (w : World) (group : string) (dwi_ref : BIDSFile) (t1w_path : string)
    (t1w_skull_stripped_path : option string) : list event :=
  [MakeDirs (tmp_input_dir w group);
   MakeDirs (tmp_output_dir w group);
   MakeDirs (tmp_singularity_dir w group);
   fslroi_call w group dwi_ref;
   StageCopy (t1_source t1w_path t1w_skull_stripped_path)
             (PyStr.path_join (tmp_input_dir w group) ["T1.nii.gz"])].

Definition acqparams_write (w : World) (group : string) (vec : list Z) (v : json) : event :=
  WriteAcqparams (PyStr.path_join (tmp_input_dir w group) ["acqparams.txt"]) vec v.

Section Staging.

Variables (args : Args) (w : World).
Variables (t1w_path : string) (t1w_skull_stripped_path : option string).

Lemma prelude_log_prints files group pe dwi_ref rest :
  forallb is_print (prelude_log files group pe dwi_ref rest) = true.
Proof. apply group_prelude_prints. Qed.

Lemma process_group_reaches_staging group dwi_ref rest pe o v st :
  fs st !! sidecar_path dwi_ref = Some (FSidecar o) →
  o !! "PhaseEncodingDirection" = Some (JStr pe) →
  Forall (λ m, pe_of (fs st) m = Some (JStr pe)) rest →
  o !! "TotalReadoutTime" = Some v →
  process_group args w t1w_path t1w_skull_stripped_path (group, dwi_ref :: rest) st
  = bind (stage_and_run args w group dwi_ref pe v t1w_path t1w_skull_stripped_path)
         (λ _, write_fmap args w group (dwi_ref :: rest) dwi_ref pe)
         (add_out st (prelude_log (fs st) group pe dwi_ref rest)).
Proof.
  intros Hf Hpe Hrest Hv.
  erewrite process_group_reaches_body by done. unfold group_body.
  rewrite (bind_Ret _ _ _ _ _
             (resolve_from_sidecar args dwi_ref o v
                (add_out st (prelude_log (fs st) group pe dwi_ref rest)) Hf Hv)).
  cbn [fst snd]. by rewrite (bind_Ret (ret tt) _ _ tt _ eq_refl).
Qed.

Lemma stage_files_ok group dwi_ref st :
  produced w (b0_input w group) = true →
  t1_available w (fs st) t1w_path t1w_skull_stripped_path →
  (emit (MakeDirs (tmp_input_dir w group)) ;;
   emit (MakeDirs (tmp_output_dir w group)) ;;
   emit (MakeDirs (tmp_singularity_dir w group)) ;;
   extract_b0 w group dwi_ref ;;
   stage_t1 w group t1w_path t1w_skull_stripped_path) st
  = (Ret tt, add_out st (staging_log w group dwi_ref t1w_path t1w_skull_stripped_path)).
Proof.
  intros Hb0 Ht1.
  erewrite bind_Ret by apply emit_eq.
  erewrite bind_Ret by apply emit_eq.
  erewrite bind_Ret by apply emit_eq.
  erewrite bind_Ret by (by apply extract_b0_present).
  rewrite !add_out_add_out.
  erewrite stage_t1_ok by done. by rewrite add_out_add_out.
Qed.

Lemma bind_assoc {A B C} (m : M A) (k : A → M B) (h : B → M C) st :
  bind (bind m k) h st = bind m (λ a, bind (k a) h) st.
Proof. unfold bind. by destruct (m st) as [[a|e] st']. Qed.

(** [stage_and_run] is the staging of the files followed by the rest. *)
Lemma stage_and_run_split group dwi_ref pe v st :
  produced w (b0_input w group) = true →
  t1_available w (fs st) t1w_path t1w_skull_stripped_path →
  stage_and_run args w group dwi_ref pe v t1w_path t1w_skull_stripped_path st
  = (vec <- lift (lookup_or_KeyError phase_encode_vectors pe) ;;
     emit (acqparams_write w group vec v) ;;
     if negb (singularity_found w)
     then raise (RuntimeError "singularity executable not found")
     else
       print ("---synb0 call---" +:+ newline
              +:+ str_join " " (synb0_cmd_list args w group
                                  (bool_decide (is_Some t1w_skull_stripped_path)))
              +:+ newline +:+ "---") ;;
       emit (synb0_call args w group t1w_skull_stripped_path))
      (add_out st (staging_log w group dwi_ref t1w_path t1w_skull_stripped_path)).
Proof.
  intros Hb0 Ht1.
  pose proof (stage_files_ok group dwi_ref st Hb0 Ht1) as Hfiles.
  unfold stage_and_run. unfold bind in *.
  destruct (emit (MakeDirs (tmp_input_dir w group)) st) as [[[]|] s1]; [|done].
  destruct (emit (MakeDirs (tmp_output_dir w group)) s1) as [[[]|] s2]; [|done].
  destruct (emit (MakeDirs (tmp_singularity_dir w group)) s2) as [[[]|] s3]; [|done].
  destruct (extract_b0 w group dwi_ref s3) as [[[]|] s4]; [|done].
  by rewrite Hfiles.
Qed.

Lemma write_fmap_no_label group members dwi_ref pe dir st :
  fmap_phase_encode_dir pe = Ret dir →
  phase_encode_labels !! dir = None →
  write_fmap args w group members dwi_ref pe st = (Raise (KeyError dir), st).
Proof.
  intros Hdir Hlabel. unfold write_fmap. rewrite Hdir. cbn [lift].
  erewrite bind_Ret by reflexivity.
  unfold fmap_phase_encode_label, lookup_or_KeyError. by rewrite Hlabel.
Qed.

Lemma write_fmap_no_volume group members dwi_ref pe dir label st :
  fmap_phase_encode_dir pe = Ret dir →
  fmap_phase_encode_label dir = Ret label →
  produced w (PyStr.path_join (tmp_output_dir w group) ["b0_u.nii.gz"]) = false →
  write_fmap args w group members dwi_ref pe st
  = (Raise (FileNotFoundError (PyStr.path_join (tmp_output_dir w group) ["b0_u.nii.gz"])),
     add_out st [EnsureDir (output_dir args)]).
Proof.
  intros Hdir Hlabel Hmissing. unfold write_fmap. rewrite Hdir. cbn [lift].
  erewrite bind_Ret by reflexivity. rewrite Hlabel. cbn [lift].
  erewrite bind_Ret by reflexivity.
  erewrite bind_Ret by apply emit_eq. by rewrite Hmissing.
Qed.

End Staging.

(** X7.  A group whose direction is k or k-: nothing stops it before the
    synthesis container has run; only then does the label lookup for the
    inverted code raise KeyError.  The run ends there, with nothing written
    to the dataset and later groups not processed. *)
Theorem X7_unsupported_axis_fails_after_synthesis (args : Args) (w : World)
    (t1w_path : string) (t1w_skull_stripped_path : option string) (group : string)
    (dwi_ref : BIDSFile) (rest : list BIDSFile) (pe : string) (o : sidecar) (v : json)
    (later : groups) (st : state) :
  group_staged w t1w_path t1w_skull_stripped_path group dwi_ref rest pe o v (fs st) →
  pe = "k" ∨ pe = "k-" →
  singularity_found w = true →
  ∃ dir log,
    fmap_phase_encode_dir pe = Ret dir
    ∧ run_groups args w t1w_path t1w_skull_stripped_path
        ((group, dwi_ref :: rest) :: later) st
      = (Raise (KeyError dir), add_out st log)
    ∧ synthesis_invoked log = true
    ∧ fs (add_out st log) = fs st.
Proof.
  intros [Hf Hpe Hrest Hv Hb0 Ht1] Hk Hsing.
  assert (∃ dir vec, fmap_phase_encode_dir pe = Ret dir
                     ∧ phase_encode_labels !! dir = None
                     ∧ phase_encode_vectors !! pe = Some vec) as (dir & vec & Hdir & Hlabel & Hvec).
  { destruct Hk as [->| ->]; [exists "k-", [0; 0; 1]%Z|exists "k", [0; 0; -1]%Z]; done. }
  exists dir, (prelude_log (fs st) group pe dwi_ref rest
               ++ stage_log args w group dwi_ref vec v t1w_path t1w_skull_stripped_path).
  split; [done|]. split; [|split; [|done]].
  - rewrite run_groups_cons.
    erewrite process_group_reaches_staging by done.
    erewrite bind_Ret by (by apply stage_and_run_ok).
    erewrite write_fmap_no_label by done. by rewrite add_out_add_out.
  - rewrite synthesis_invoked_app. apply orb_true_iff. right. reflexivity.
Qed.

(** X8.  A group at the staging step whose direction is none of the six
    codes of the vector table: the slicing tool has run and the T1w image is
    staged when the vector lookup raises KeyError for the direction; the
    synthesis container is not started and nothing is written. *)
Theorem X8_unknown_direction_fails_before_synthesis (args : Args) (w : World)
    (t1w_path : string) (t1w_skull_stripped_path : option string) (group : string)
    (dwi_ref : BIDSFile) (rest : list BIDSFile) (pe : string) (o : sidecar) (v : json)
    (later : groups) (st : state) :
  group_staged w t1w_path t1w_skull_stripped_path group dwi_ref rest pe o v (fs st) →
  phase_encode_vectors !! pe = None →
  run_groups args w t1w_path t1w_skull_stripped_path ((group, dwi_ref :: rest) :: later) st
  = (Raise (KeyError pe),
     add_out st (prelude_log (fs st) group pe dwi_ref rest
                 ++ staging_log w group dwi_ref t1w_path t1w_skull_stripped_path))
  ∧ synthesis_invoked (prelude_log (fs st) group pe dwi_ref rest
                       ++ staging_log w group dwi_ref t1w_path t1w_skull_stripped_path)
    = false.
Proof.
  intros [Hf Hpe Hrest Hv Hb0 Ht1] Hvec. split.
  - rewrite run_groups_cons.
    erewrite process_group_reaches_staging by done.
    erewrite bind_Raise; [done|].
    rewrite stage_and_run_split by done.
    unfold lookup_or_KeyError. rewrite Hvec. cbn [lift].
    unfold bind, raise. by rewrite add_out_add_out.
  - rewrite synthesis_invoked_app.
    by rewrite (synthesis_invoked_prints _ (prelude_log_prints _ _ _ _ _)).
Qed.

(** X9.  The synthesis container ran but left no [b0_u.nii.gz]: the copy
    into the dataset raises FileNotFoundError.  The run ends with a
    traceback, not an exit code of its own; nothing has been written to the
    dataset and later groups are not processed. *)
Theorem X9_missing_synthesis_output_raises (args : Args) (w : World)
    (t1w_path : string) (t1w_skull_stripped_path : option string) (group : string)
    (dwi_ref : BIDSFile) (rest : list BIDSFile) (pe dir label : string) (vec : list Z)
    (o : sidecar) (v : json) (later : groups) (st : state) :
  group_staged w t1w_path t1w_skull_stripped_path group dwi_ref rest pe o v (fs st) →
  phase_encode_vectors !! pe = Some vec →
  singularity_found w = true →
  fmap_phase_encode_dir pe = Ret dir →
  fmap_phase_encode_label dir = Ret label →
  produced w (PyStr.path_join (tmp_output_dir w group) ["b0_u.nii.gz"]) = false →
  run_groups args w t1w_path t1w_skull_stripped_path ((group, dwi_ref :: rest) :: later) st
  = (Raise (FileNotFoundError (PyStr.path_join (tmp_output_dir w group) ["b0_u.nii.gz"])),
     add_out st (prelude_log (fs st) group pe dwi_ref rest
                 ++ stage_log args w group dwi_ref vec v t1w_path t1w_skull_stripped_path
                 ++ [EnsureDir (output_dir args)])).
Proof.
  intros [Hf Hpe Hrest Hv Hb0 Ht1] Hvec Hsing Hdir Hlabel Hmissing.
  rewrite run_groups_cons.
  erewrite process_group_reaches_staging by done.
  erewrite bind_Ret by (by apply stage_and_run_ok).
  erewrite write_fmap_no_volume by done.
  by rewrite !add_out_add_out, <- ?(assoc_L (++)).
Qed.

(** X10.  No [singularity] executable on the path: the script finds out
    only after the scratch directories are made, the slicing tool has run
    and the parameter file is written, and raises RuntimeError; the
    container is not started and the dataset is unchanged. *)
Theorem X10_singularity_missing_raises (args : Args) (w : World)
    (t1w_path : string) (t1w_skull_stripped_path : option string) (group : string)
    (dwi_ref : BIDSFile) (rest : list BIDSFile) (pe : string) (vec : list Z)
    (o : sidecar) (v : json) (later : groups) (st : state) :
  group_staged w t1w_path t1w_skull_stripped_path group dwi_ref rest pe o v (fs st) →
  phase_encode_vectors !! pe = Some vec →
  singularity_found w = false →
  run_groups args w t1w_path t1w_skull_stripped_path ((group, dwi_ref :: rest) :: later) st
  = (Raise (RuntimeError "singularity executable not found"),
     add_out st (prelude_log (fs st) group pe dwi_ref rest
                 ++ staging_log w group dwi_ref t1w_path t1w_skull_stripped_path
                 ++ [acqparams_write w group vec v]))
  ∧ synthesis_invoked (prelude_log (fs st) group pe dwi_ref rest
                       ++ staging_log w group dwi_ref t1w_path t1w_skull_stripped_path
                       ++ [acqparams_write w group vec v])
    = false.
Proof.
  intros [Hf Hpe Hrest Hv Hb0 Ht1] Hvec Hsing. split.
  - rewrite run_groups_cons.
    erewrite process_group_reaches_staging by done.
    erewrite bind_Raise; [done|].
    rewrite stage_and_run_split by done.
    unfold lookup_or_KeyError. rewrite Hvec. cbn [lift].
    erewrite bind_Ret by reflexivity.
    erewrite bind_Ret by apply emit_eq.
    rewrite Hsing. cbn [negb]. unfold raise.
    by rewrite !add_out_add_out, <- ?(assoc_L (++)).
  - rewrite synthesis_invoked_app.
    by rewrite (synthesis_invoked_prints _ (prelude_log_prints _ _ _ _ _)).
Qed.

(** ** More concrete runs *)

Module Cases.

(** One image of acquisition dir98 with the given direction. *)
Definition files_with (pe : string) : gmap string file :=
  Run.dataset [(Run.a1, Run.dwi_sidecar pe (Some (5 # 100)))].

Definition one_group : groups := [("dir98", [Run.a1])].

Definition b0_u_of_dir98 : string := "/scratch/bids-synb0.k3/dir98_synb0_output/b0_u.nii.gz".
Definition no_b0_u_for_dir98 (p : string) : bool := negb (String.eqb p b0_u_of_dir98).

Definition world_without_singularity : World :=
  mkWorld [Run.a1] [Run.t1w] (fun _ => Some []) "/scratch/bids-synb0.k3" (fun p => p)
          false Run.all_produced.

End Cases.

Ltac staged_here :=
  split;
  [ vm_compute; reflexivity | vm_compute; reflexivity | repeat constructor
  | vm_compute; reflexivity | reflexivity | vm_compute; eexists; reflexivity ].

Lemma X7_unsupported_axis_fails_after_synthesis_witness :
  ∃ st',
    run_groups (Run.args None) (Run.world [Run.a1] Run.all_produced) Run.t1w None
      Cases.one_group (Run.start (Cases.files_with "k"))
    = (Raise (KeyError "k-"), st')
    ∧ synthesis_invoked (out st') = true.
Proof.
  destruct (X7_unsupported_axis_fails_after_synthesis
              (Run.args None) (Run.world [Run.a1] Run.all_produced) Run.t1w None
              "dir98" Run.a1 [] "k" (Run.dwi_sidecar "k" (Some (5 # 100))) (JNum (5 # 100))
              [] (Run.start (Cases.files_with "k")))
    as (dir & log & Hdir & Hrun & Hsyn & _).
  - staged_here.
  - left. reflexivity.
  - reflexivity.
  - injection Hdir as <-. eexists. split; [exact Hrun|]. exact Hsyn.
Defined.

Lemma X8_unknown_direction_fails_before_synthesis_witness :
  ∃ st',
    run_groups (Run.args None) (Run.world [Run.a1] Run.all_produced) Run.t1w None
      Cases.one_group (Run.start (Cases.files_with "AP"))
    = (Raise (KeyError "AP"), st').
Proof.
  destruct (X8_unknown_direction_fails_before_synthesis
              (Run.args None) (Run.world [Run.a1] Run.all_produced) Run.t1w None
              "dir98" Run.a1 [] "AP" (Run.dwi_sidecar "AP" (Some (5 # 100))) (JNum (5 # 100))
              [] (Run.start (Cases.files_with "AP")))
    as [Hrun _].
  - staged_here.
  - reflexivity.
  - eexists. exact Hrun.
Defined.

Lemma X9_missing_synthesis_output_raises_witness :
  ∃ st',
    run_groups (Run.args None) (Run.world [Run.a1] Cases.no_b0_u_for_dir98) Run.t1w None
      Cases.one_group (Run.start (Cases.files_with "j"))
    = (Raise (FileNotFoundError Cases.b0_u_of_dir98), st')
    ∧ fs st' = Cases.files_with "j".
Proof.
  eexists. split.
  - apply (X9_missing_synthesis_output_raises
             (Run.args None) (Run.world [Run.a1] Cases.no_b0_u_for_dir98) Run.t1w None
             "dir98" Run.a1 [] "j" "j-" "AP" [0; 1; 0]%Z
             (Run.dwi_sidecar "j" (Some (5 # 100))) (JNum (5 # 100)) []
             (Run.start (Cases.files_with "j")));
      [staged_here|reflexivity|reflexivity|reflexivity|reflexivity|reflexivity].
  - reflexivity.
Defined.

Lemma X10_singularity_missing_raises_witness :
  ∃ st',
    run_groups (Run.args None) Cases.world_without_singularity Run.t1w None
      Cases.one_group (Run.start (Cases.files_with "j"))
    = (Raise (RuntimeError "singularity executable not found"), st').
Proof.
  destruct (X10_singularity_missing_raises
              (Run.args None) Cases.world_without_singularity Run.t1w None
              "dir98" Run.a1 [] "j" [0; 1; 0]%Z
              (Run.dwi_sidecar "j" (Some (5 # 100))) (JNum (5 # 100)) []
              (Run.start (Cases.files_with "j")))
    as [Hrun _].
  - staged_here.
  - reflexivity.
  - reflexivity.
  - eexists. exact Hrun.
Defined.

(** ** The whole effect of one group *)

(** The dataset after a group has been written. *)
Definition dataset_after (args : Args) (group label dir : string)
    (group_dwi_images : list BIDSFile) (o : sidecar) (files : gmap string file)
  : gmap string file :=
  <[fmap_sidecar_path args group label :=
      FSidecar (edit_fmap_sidecar (session_label args) group_dwi_images dir o)]>
    (<[fmap_volume_path args group label := FData]> files).

Section GroupEffect.

Variables (args : Args) (w : World).
Variables (t1w_path : string) (t1w_skull_stripped_path : option string).

Lemma process_group_success group dwi_ref rest pe dir label vec o v st :
  group_staged w t1w_path t1w_skull_stripped_path group dwi_ref rest pe o v (fs st) →
  phase_encode_vectors !! pe = Some vec →
  singularity_found w = true →
  fmap_phase_encode_dir pe = Ret dir →
  fmap_phase_encode_label dir = Ret label →
  produced w (PyStr.path_join (tmp_output_dir w group) ["b0_u.nii.gz"]) = true →
  sidecar_path dwi_ref ≠ fmap_volume_path args group label →
  process_group args w t1w_path t1w_skull_stripped_path (group, dwi_ref :: rest) st
  = (Ret tt,
     mkState (dataset_after args group label dir (dwi_ref :: rest) o (fs st))
             (out st ++ prelude_log (fs st) group pe dwi_ref rest
              ++ stage_log args w group dwi_ref vec v t1w_path t1w_skull_stripped_path
              ++ [EnsureDir (output_dir args)])
             true).
Proof.
  intros [Hf Hpe Hrest Hv Hb0 Ht1] Hvec Hsing Hdir Hlabel Hb0u Hne.
  erewrite process_group_reaches_staging by done.
  erewrite bind_Ret by (by apply stage_and_run_ok).
  erewrite write_fmap_ok by done.
  unfold dataset_after. cbn [add_out fs out fmap_sidecar_bound].
  by rewrite <- !(assoc_L (++)).
Qed.

Lemma process_group_backfill group dwi_ref rest pe o t st :
  fs st !! sidecar_path dwi_ref = Some (FSidecar o) →
  o !! "PhaseEncodingDirection" = Some (JStr pe) →
  Forall (λ m, pe_of (fs st) m = Some (JStr pe)) rest →
  o !! "TotalReadoutTime" = None →
  total_readout_time args = Some t →
  process_group args w t1w_path t1w_skull_stripped_path (group, dwi_ref :: rest) st
  = (Raise (if fmap_sidecar_bound st then ValueError else NameError "fmap_sidecar"),
     mkState (<[sidecar_path dwi_ref := FData]> (fs st))
             (out st ++ prelude_log (fs st) group pe dwi_ref rest
              ++ [no_readout_in_sidecar dwi_ref;
                  Print ("Inserting total readout time from command line: " +:+ t)])
             (fmap_sidecar_bound st)).
Proof.
  intros Hf Hpe Hrest Hnone Ht.
  erewrite process_group_reaches_body by done. unfold group_body.
  fold (prelude_log (fs st) group pe dwi_ref rest).
  rewrite (bind_Ret _ _ _ _ _
             (resolve_from_override args dwi_ref o t
                (add_out st (prelude_log (fs st) group pe dwi_ref rest)) Hf Hnone Ht)).
  cbn [fst snd]. erewrite bind_Raise; [|by eapply backfill_raises].
  cbn [add_out fs out fmap_sidecar_bound]. by rewrite <- !(assoc_L (++)).
Qed.

End GroupEffect.

(** X11.  Every group that needs the command-line readout time ends the
    run in the first iteration of the backfill: the reference image's
    sidecar has been emptied, no other file is changed, no tool has run, and
    the error is NameError or, once an earlier group has written its field
    map, ValueError. *)
Theorem X11_backfill_always_fails (args : Args) (w : World) (t1w_path : string)
    (t1w_skull_stripped_path : option string) (group : string) (dwi_ref : BIDSFile)
    (rest : list BIDSFile) (pe : string) (o : sidecar) (t : string) (later : groups)
    (st : state) :
  fs st !! sidecar_path dwi_ref = Some (FSidecar o) →
  o !! "PhaseEncodingDirection" = Some (JStr pe) →
  Forall (λ m, pe_of (fs st) m = Some (JStr pe)) rest →
  o !! "TotalReadoutTime" = None →
  total_readout_time args = Some t →
  ∃ st',
    run_groups args w t1w_path t1w_skull_stripped_path
      ((group, dwi_ref :: rest) :: later) st
    = (Raise (if fmap_sidecar_bound st then ValueError else NameError "fmap_sidecar"), st')
    ∧ fs st' = <[sidecar_path dwi_ref := FData]> (fs st)
    ∧ (∃ log, out st' = out st ++ log ∧ forallb is_print log = true).
Proof.
  intros Hf Hpe Hrest Hnone Ht. eexists. split; [|split].
  - rewrite run_groups_cons.
    by erewrite process_group_backfill by done.
  - done.
  - eexists. split; [done|]. by rewrite forallb_app, prelude_log_prints.
Qed.

Lemma X11_backfill_always_fails_witness :
  ∃ st',
    run_groups (Run.args (Some "0.05")) (Run.world [Run.a1; Run.a2] Run.all_produced)
      Run.t1w None [("dir98", [Run.a1; Run.a2])]
      (mkState Run.filesC [] true)
    = (Raise ValueError, st')
    ∧ fs st' !! sidecar_path Run.a1 = Some FData.
Proof.
  destruct (X11_backfill_always_fails
              (Run.args (Some "0.05")) (Run.world [Run.a1; Run.a2] Run.all_produced)
              Run.t1w None "dir98" Run.a1 [Run.a2] "j" (Run.dwi_sidecar "j" None) "0.05" []
              (mkState Run.filesC [] true))
    as (st' & Hrun & Hfs & _).
  - vm_compute. reflexivity.
  - vm_compute. reflexivity.
  - repeat constructor.
  - reflexivity.
  - reflexivity.
  - exists st'. split; [exact Hrun|]. rewrite Hfs. apply lookup_insert_eq.
Defined.

(** X12.  A group for which every step succeeds has exactly this effect:
    the events are the check's lines, the three scratch directories, the
    slicing call, the T1w copy, the parameter file with the vector of the
    group's own direction and the sidecar's readout time, the synthesis
    call, and the creation of the fmap directory, in this order; the
    dataset changes at the output volume and the output sidecar and nowhere
    else. *)
Theorem X12_successful_group_effect (args : Args) (w : World) (t1w_path : string)
    (t1w_skull_stripped_path : option string) (group : string) (dwi_ref : BIDSFile)
    (rest : list BIDSFile) (pe dir label : string) (vec : list Z) (o : sidecar) (v : json)
    (st : state) :
  group_staged w t1w_path t1w_skull_stripped_path group dwi_ref rest pe o v (fs st) →
  phase_encode_vectors !! pe = Some vec →
  singularity_found w = true →
  fmap_phase_encode_dir pe = Ret dir →
  fmap_phase_encode_label dir = Ret label →
  produced w (PyStr.path_join (tmp_output_dir w group) ["b0_u.nii.gz"]) = true →
  sidecar_path dwi_ref ≠ fmap_volume_path args group label →
  ∃ st',
    process_group args w t1w_path t1w_skull_stripped_path (group, dwi_ref :: rest) st
    = (Ret tt, st')
    ∧ out st' = out st ++ prelude_log (fs st) group pe dwi_ref rest
                ++ stage_log args w group dwi_ref vec v t1w_path t1w_skull_stripped_path
                ++ [EnsureDir (output_dir args)]
    ∧ fs st' !! fmap_volume_path args group label
      = (if decide (fmap_volume_path args group label = fmap_sidecar_path args group label)
         then fs st' !! fmap_sidecar_path args group label else Some FData)
    ∧ is_Some (fs st' !! fmap_sidecar_path args group label)
    ∧ (∀ p, p ≠ fmap_volume_path args group label →
            p ≠ fmap_sidecar_path args group label → fs st' !! p = fs st !! p)
    ∧ fmap_sidecar_bound st' = true.
Proof.
  intros Hstaged Hvec Hsing Hdir Hlabel Hb0u Hne. eexists. split.
  { by eapply process_group_success. }
  cbn [fs out fmap_sidecar_bound]. unfold dataset_after.
  split; [done|]. split; [|split; [|split; [|done]]].
  - case_decide as Heq; [by rewrite Heq|].
    by rewrite lookup_insert_ne, lookup_insert_eq by done.
  - rewrite lookup_insert_eq. by eexists.
  - intros p Hp1 Hp2. by rewrite !lookup_insert_ne by done.
Qed.

Lemma X12_successful_group_effect_witness :
  ∃ st',
    process_group (Run.args None) (Run.world [Run.a1; Run.a2] Run.all_produced) Run.t1w None
      ("dir98", [Run.a1; Run.a2]) (Run.start Run.filesA) = (Ret tt, st')
    ∧ fs st' !! sidecar_path Run.a2 = Run.filesA !! sidecar_path Run.a2.
Proof.
  destruct (X12_successful_group_effect
              (Run.args None) (Run.world [Run.a1; Run.a2] Run.all_produced) Run.t1w None
              "dir98" Run.a1 [Run.a2] "j" "j-" "AP" [0; 1; 0]%Z
              (Run.dwi_sidecar "j" (Some (5 # 100))) (JNum (5 # 100))
              (Run.start Run.filesA))
    as (st' & Hrun & _ & _ & _ & Hframe & _).
  - staged_here.
  - reflexivity.
  - reflexivity.
  - reflexivity.
  - reflexivity.
  - reflexivity.
  - vm_compute. discriminate.
  - exists st'. split; [exact Hrun|]. apply Hframe; vm_compute; discriminate.
Defined.

Section Rerun.

Variables (args : Args) (w : World).
Variables (t1w_path : string) (t1w_skull_stripped_path : option string).

Lemma dataset_after_idem group label dir members o files :
  dataset_after args group label dir members o
    (dataset_after args group label dir members o files)
  = dataset_after args group label dir members o files.
Proof.
  unfold dataset_after. apply map_eq. intros p.
  destruct (decide (p = fmap_sidecar_path args group label)) as [->|Hs].
  - by rewrite !lookup_insert_eq.
  - rewrite !(lookup_insert_ne _ (fmap_sidecar_path args group label)) by done.
    destruct (decide (p = fmap_volume_path args group label)) as [->|Hv].
    + by rewrite !lookup_insert_eq.
    + by rewrite !lookup_insert_ne by done.
Qed.

Lemma dataset_after_other group label dir members o files p :
  p ≠ fmap_volume_path args group label →
  p ≠ fmap_sidecar_path args group label →
  dataset_after args group label dir members o files !! p = files !! p.
Proof. intros Hv Hs. unfold dataset_after. by rewrite !lookup_insert_ne by done. Qed.

Lemma dataset_after_keeps group label dir members o files p :
  is_Some (files !! p) →
  is_Some (dataset_after args group label dir members o files !! p).
Proof.
  intros Hp. unfold dataset_after. rewrite !lookup_insert_is_Some'. tauto.
Qed.

Lemma pe_of_after group label dir members o files pe (rest : list BIDSFile) :
  Forall (λ m, sidecar_path m ≠ fmap_volume_path args group label
               ∧ sidecar_path m ≠ fmap_sidecar_path args group label) rest →
  Forall (λ m, pe_of files m = Some (JStr pe)) rest →
  Forall (λ m, pe_of (dataset_after args group label dir members o files) m
               = Some (JStr pe)) rest.
Proof.
  induction 1 as [|m rest [Hmv Hms] _ IH]; [done|].
  intros [Hm Hrest]%Forall_cons. constructor; [|by apply IH].
  unfold pe_of in *. by rewrite dataset_after_other.
Qed.

Lemma group_staged_after group dwi_ref rest pe dir label o v files :
  Forall (λ m, sidecar_path m ≠ fmap_volume_path args group label
               ∧ sidecar_path m ≠ fmap_sidecar_path args group label) (dwi_ref :: rest) →
  group_staged w t1w_path t1w_skull_stripped_path group dwi_ref rest pe o v files →
  group_staged w t1w_path t1w_skull_stripped_path group dwi_ref rest pe o v
    (dataset_after args group label dir (dwi_ref :: rest) o files).
Proof.
  intros [[Hv Hs] Hothers]%Forall_cons [Hf Hpe Hrest Hrd Hb0 Ht1]. split; try done.
  - by rewrite dataset_after_other.
  - by apply pe_of_after.
  - unfold t1_available in *. destruct t1w_skull_stripped_path; [done|].
    by apply dataset_after_keeps.
Qed.

End Rerun.

(** X13.  Running a successful group a second time overwrites its two
    output files with the same content: when no member's sidecar is one of
    the two output paths, the dataset after the second pass equals the
    dataset after the first. *)
Theorem X13_rerun_leaves_dataset_fixed (args : Args) (w : World) (t1w_path : string)
    (t1w_skull_stripped_path : option string) (group : string) (dwi_ref : BIDSFile)
    (rest : list BIDSFile) (pe dir label : string) (vec : list Z) (o : sidecar) (v : json)
    (st : state) :
  group_staged w t1w_path t1w_skull_stripped_path group dwi_ref rest pe o v (fs st) →
  phase_encode_vectors !! pe = Some vec →
  singularity_found w = true →
  fmap_phase_encode_dir pe = Ret dir →
  fmap_phase_encode_label dir = Ret label →
  produced w (PyStr.path_join (tmp_output_dir w group) ["b0_u.nii.gz"]) = true →
  Forall (λ m, sidecar_path m ≠ fmap_volume_path args group label
               ∧ sidecar_path m ≠ fmap_sidecar_path args group label) (dwi_ref :: rest) →
  ∃ st1 st2,
    process_group args w t1w_path t1w_skull_stripped_path (group, dwi_ref :: rest) st
    = (Ret tt, st1)
    ∧ process_group args w t1w_path t1w_skull_stripped_path (group, dwi_ref :: rest) st1
      = (Ret tt, st2)
    ∧ fs st2 = fs st1.
Proof.
  intros Hstaged Hvec Hsing Hdir Hlabel Hb0u Hdistinct.
  pose proof (proj1 (Forall_cons _ _ _) Hdistinct) as [[Hne _] _].
  eexists _, _. split; [by eapply process_group_success|]. split.
  - eapply process_group_success; try done.
    cbn [fs]. by apply group_staged_after.
  - cbn [fs]. apply dataset_after_idem.
Qed.

Lemma X13_rerun_leaves_dataset_fixed_witness :
  ∃ st1 st2,
    process_group (Run.args None) (Run.world [Run.a1; Run.a2] Run.all_produced) Run.t1w None
      ("dir98", [Run.a1; Run.a2]) (Run.start Run.filesA) = (Ret tt, st1)
    ∧ process_group (Run.args None) (Run.world [Run.a1; Run.a2] Run.all_produced) Run.t1w None
        ("dir98", [Run.a1; Run.a2]) st1 = (Ret tt, st2)
    ∧ fs st2 = fs st1.
Proof.
  apply (X13_rerun_leaves_dataset_fixed
           (Run.args None) (Run.world [Run.a1; Run.a2] Run.all_produced) Run.t1w None
           "dir98" Run.a1 [Run.a2] "j" "j-" "AP" [0; 1; 0]%Z
           (Run.dwi_sidecar "j" (Some (5 # 100))) (JNum (5 # 100))
           (Run.start Run.filesA)).
  - staged_here.
  - reflexivity.
  - reflexivity.
  - reflexivity.
  - reflexivity.
  - reflexivity.
  - repeat constructor; vm_compute; discriminate.
Defined.

(** ** What no run ever does *)

(** A computation that writes only to paths in [P], removes no file, only
    appends events, and, if it exits, exits with code 1. *)
Definition keeps (P : string → Prop) {A} (m : M A) : Prop :=
  ∀ st,
    (∀ p, ¬ P p → fs (m st).2 !! p = fs st !! p)
    ∧ (∀ p, is_Some (fs st !! p) → is_Some (fs (m st).2 !! p))
    ∧ (∃ log, out (m st).2 = out st ++ log)
    ∧ (∀ c, (m st).1 = Raise (SystemExit c) → c = 1%Z).

Definition not_other_exit {A} (r : outcome A) : Prop :=
  ∀ c, r = Raise (SystemExit c) → c = 1%Z.

Section Keeps.

Variable P : string → Prop.

Lemma keeps_ret {A} (a : A) : keeps P (ret a).
Proof.
  intros st. cbn. split; [done|]. split; [done|].
  split; [exists []; by rewrite app_nil_r|done].
Qed.

Lemma keeps_raise {A} (e : exn) : not_other_exit (@Raise A e) → keeps P (@raise A e).
Proof.
  intros He st. cbn. split; [done|]. split; [done|].
  split; [exists []; by rewrite app_nil_r|]. intros c Hc. by apply He.
Qed.

Lemma keeps_emit (e : event) : keeps P (emit e).
Proof.
  intros st. cbn. split; [done|]. split; [done|]. split; [by exists [e]|done].
Qed.

Lemma keeps_get_fs : keeps P get_fs.
Proof.
  intros st. cbn. split; [done|]. split; [done|].
  split; [exists []; by rewrite app_nil_r|done].
Qed.

Lemma keeps_get_bound : keeps P get_bound.
Proof.
  intros st. cbn. split; [done|]. split; [done|].
  split; [exists []; by rewrite app_nil_r|done].
Qed.

Lemma keeps_set_bound : keeps P set_bound.
Proof.
  intros st. cbn. split; [done|]. split; [done|].
  split; [exists []; by rewrite app_nil_r|done].
Qed.

Lemma keeps_put_file (p : string) (f : file) : P p → keeps P (put_file p f).
Proof.
  intros Hp st. cbn. split; [|split; [|split; [|done]]].
  - intros q Hq. apply lookup_insert_ne. by intros ->.
  - intros q Hq. rewrite lookup_insert_is_Some'. by right.
  - exists []. by rewrite app_nil_r.
Qed.

Lemma keeps_bind {A B} (m : M A) (k : A → M B) :
  keeps P m → (∀ a, keeps P (k a)) → keeps P (bind m k).
Proof.
  intros Hm Hk st. specialize (Hm st). unfold bind.
  destruct (m st) as [[a|e] st1]; cbn [fst snd] in *.
  2: { destruct Hm as (Hm1 & Hm2 & Hm3 & Hm4). split; [done|]. split; [done|].
       split; [done|]. intros c [= ->]. by apply Hm4. }
  destruct Hm as (Hm1 & Hm2 & [log1 Hm3] & _).
  destruct (Hk a st1) as (Hk1 & Hk2 & [log2 Hk3] & Hk4).
  split; [|split; [|split; [|done]]].
  - intros p Hp. by rewrite Hk1, Hm1.
  - intros p Hp. by apply Hk2, Hm2.
  - exists (log1 ++ log2). by rewrite Hk3, Hm3, (assoc_L (++)).
Qed.

Lemma keeps_lift {A} (r : outcome A) : not_other_exit r → keeps P (lift r).
Proof. destruct r; intros Hr; [apply keeps_ret|by apply keeps_raise]. Qed.

Lemma keeps_foldM {A B} (body : A → B → M B) (l : list A) (acc : B) :
  (∀ x acc', x ∈ l → keeps P (body x acc')) → keeps P (foldM body l acc).
Proof.
  revert acc. induction l as [|x l IH]; intros acc Hbody; [apply keeps_ret|].
  cbn [foldM]. apply keeps_bind.
  - apply Hbody, list_elem_of_here.
  - intros acc'. apply IH. intros y acc'' Hy. by apply Hbody, list_elem_of_further.
Qed.

Lemma keeps_forM {A} (body : A → M unit) (l : list A) :
  (∀ x, x ∈ l → keeps P (body x)) → keeps P (forM body l).
Proof.
  induction l as [|x l IH]; intros Hbody; [apply keeps_ret|].
  cbn [forM]. apply keeps_bind.
  - apply Hbody, list_elem_of_here.
  - intros _. apply IH. intros y Hy. by apply Hbody, list_elem_of_further.
Qed.

End Keeps.

(** Decompose a computation of the script into its primitives. *)
Ltac keeps_step :=
  first
    [ apply keeps_ret
    | apply keeps_emit
    | apply keeps_get_fs
    | apply keeps_get_bound
    | apply keeps_set_bound
    | apply keeps_raise; intros ? [=]; done
    | apply keeps_bind; [|intros ?]
    | match goal with
      | |- keeps _ (match ?x with _ => _ end) => destruct x
      end ].

Section KeepsScript.

Variables (args : Args) (w : World) (P : string → Prop).

Lemma keeps_print s : keeps P (print s).
Proof. apply keeps_emit. Qed.

Lemma keeps_json_load p : keeps P (json_load p).
Proof. unfold json_load. repeat keeps_step. Qed.

Lemma keeps_getitem d k : keeps P (getitem d k).
Proof. unfold getitem. repeat keeps_step. Qed.

Lemma keeps_setitem d k v : keeps P (setitem d k v).
Proof. unfold setitem. repeat keeps_step. Qed.

Lemma keeps_as_str v : keeps P (as_str v).
Proof. unfold as_str. repeat keeps_step. Qed.

Lemma keeps_copy_file src dst : P dst → keeps P (copy_file src dst).
Proof. intros Hdst. unfold copy_file. repeat keeps_step. by apply keeps_put_file. Qed.

Lemma keeps_bids_filter value : keeps P (bids_filter value).
Proof. unfold bids_filter. repeat keeps_step. Qed.

Lemma keeps_mask_matches mask_dir t1w_filename n :
  keeps P (mask_matches mask_dir t1w_filename n).
Proof.
  unfold mask_matches.
  apply keeps_bind; [apply keeps_json_load|intros d].
  apply keeps_bind; [apply keeps_getitem|intros v].
  apply keeps_bind; apply keeps_lift || intros x.
  - unfold first_item. intros c. repeat case_match; by intros [=].
  - apply keeps_lift. unfold json_endswith. intros c. by case_match; intros [=].
Qed.

Lemma keeps_find_t1w_mask mask_dir t1w_filename l :
  keeps P (find_t1w_mask mask_dir t1w_filename l).
Proof.
  induction l as [|n l IH]; cbn [find_t1w_mask]; [apply keeps_ret|].
  apply keeps_bind; [apply keeps_mask_matches|intros []]; [apply keeps_ret|done].
Qed.

Lemma keeps_get_t1w_skull_stripped dataset t1w_path t1w_filename :
  keeps P (get_t1w_skull_stripped args w dataset t1w_path t1w_filename).
Proof.
  unfold get_t1w_skull_stripped. destruct (listdir w _); [|repeat keeps_step].
  apply keeps_bind; [apply keeps_find_t1w_mask|intros [mask|]]; repeat keeps_step.
Qed.

Lemma keeps_resolve_brain_mask t1w_path t1w_filename :
  keeps P (resolve_brain_mask args w t1w_path t1w_filename).
Proof.
  unfold resolve_brain_mask. apply keeps_bind.
  - destruct (t1w_mask_dataset args); apply keeps_get_t1w_skull_stripped.
  - intros [p|]; repeat keeps_step.
Qed.

Lemma keeps_check_pe_direction dwi_image acc : keeps P (check_pe_direction dwi_image acc).
Proof.
  unfold check_pe_direction.
  apply keeps_bind; [apply keeps_print|intros _].
  apply keeps_bind; [apply keeps_json_load|intros d].
  destruct (fst acc);
    (apply keeps_bind; [apply keeps_getitem|intros v]); try apply keeps_ret;
    (destruct (negb _); [|apply keeps_ret]);
    (apply keeps_bind; [apply keeps_print|intros _; apply keeps_ret]).
Qed.

Lemma keeps_scan_pe_directions members : keeps P (scan_pe_directions members).
Proof. apply keeps_foldM. intros. apply keeps_check_pe_direction. Qed.

Lemma keeps_resolve_total_readout_time dwi_ref :
  keeps P (resolve_total_readout_time args dwi_ref).
Proof.
  unfold resolve_total_readout_time.
  apply keeps_bind; [apply keeps_json_load|intros [o|]]; [|repeat keeps_step].
  destruct (o !! "TotalReadoutTime"); [apply keeps_ret|].
  apply keeps_bind; [apply keeps_print|intros _].
  destruct (total_readout_time args); [apply keeps_ret|].
  apply keeps_bind; [apply keeps_print|intros _].
  apply keeps_raise. by intros c [= <-].
Qed.

Lemma keeps_backfill dwi_ref readout members :
  P (sidecar_path dwi_ref) →
  keeps P (backfill_total_readout_time dwi_ref readout members).
Proof.
  intros Href. apply keeps_forM. intros m _. unfold backfill_one.
  apply keeps_bind; [apply keeps_as_str|intros t].
  apply keeps_bind; [apply keeps_print|intros _].
  apply keeps_bind; [apply keeps_json_load|intros d].
  apply keeps_bind; [apply keeps_setitem|intros _].
  apply keeps_bind; [by apply keeps_put_file|intros _].
  apply keeps_bind; [apply keeps_get_bound|intros []]; repeat keeps_step.
Qed.

Lemma keeps_stage_and_run group dwi_ref pe readout t1w_path sk :
  keeps P (stage_and_run args w group dwi_ref pe readout t1w_path sk).
Proof.
  unfold stage_and_run.
  do 3 (apply keeps_bind; [apply keeps_emit|intros _]).
  apply keeps_bind.
  { unfold extract_b0. apply keeps_bind; [apply keeps_emit|intros _].
    destruct (negb _); [|apply keeps_ret].
    apply keeps_bind; [apply keeps_print|intros _].
    apply keeps_raise. by intros c [= <-]. }
  intros _. apply keeps_bind.
  { unfold stage_t1. destruct sk as [p|].
    - destruct (produced w p); repeat keeps_step.
    - repeat keeps_step. }
  intros _. apply keeps_bind.
  { apply keeps_lift. unfold lookup_or_KeyError. intros c. by case_match; intros [=]. }
  intros vec. apply keeps_bind; [apply keeps_emit|intros _].
  destruct (negb _); repeat keeps_step.
Qed.

End KeepsScript.

(** The paths a run may write: the output volume and sidecar of one of its
    groups, named with one of the four labels, and the sidecars of the DWI
    images. *)
Definition may_write (args : Args) (w : World) (p : string) : Prop :=
  (∃ group label,
     group ∈ map fst (select_dwi_groups (combine_all_dwis args) (dwi_images w))
     ∧ label ∈ ["RL"; "LR"; "PA"; "AP"]
     ∧ (p = fmap_volume_path args group label ∨ p = fmap_sidecar_path args group label))
  ∨ (∃ m, m ∈ dwi_images w ∧ p = sidecar_path m).

Section KeepsMain.

Variables (args : Args) (w : World).

Lemma keeps_bind_ret (P : string → Prop) {A B} (a : A) (k : A → M B) :
  keeps P (k a) → keeps P (bind (ret a) k).
Proof. intros Hk st. exact (Hk st). Qed.

Lemma label_in_table dir label :
  fmap_phase_encode_label dir = Ret label → label ∈ ["RL"; "LR"; "PA"; "AP"].
Proof.
  unfold fmap_phase_encode_label, lookup_or_KeyError.
  destruct (phase_encode_labels !! dir) as [l|] eqn:E; [|done]. intros [= <-].
  apply elem_of_list_to_map_2 in E.
  apply (list_elem_of_fmap_2 snd) in E. exact E.
Qed.

Lemma keeps_write_fmap_labelled (P : string → Prop) group members dwi_ref pe :
  (∀ label, label ∈ ["RL"; "LR"; "PA"; "AP"] →
            P (fmap_volume_path args group label) ∧ P (fmap_sidecar_path args group label)) →
  keeps P (write_fmap args w group members dwi_ref pe).
Proof.
  intros Hout. unfold write_fmap. apply keeps_bind.
  { apply keeps_lift. unfold fmap_phase_encode_dir. intros c. by repeat case_match; intros [=]. }
  intros dir. destruct (fmap_phase_encode_label dir) as [label|e] eqn:Hlabel; cbn [lift].
  2: { unfold fmap_phase_encode_label, lookup_or_KeyError in Hlabel.
       destruct (phase_encode_labels !! dir); [done|]. injection Hlabel as <-.
       intros st. apply (keeps_raise P (KeyError dir)). by intros c [=]. }
  apply keeps_bind_ret. destruct (Hout label (label_in_table dir label Hlabel)) as [Hvol Hsc].
  apply keeps_bind; [apply keeps_emit|intros _].
  apply keeps_bind.
  { destruct (produced w _); [by apply keeps_put_file|repeat keeps_step]. }
  intros _. apply keeps_bind; [by apply keeps_copy_file|intros _].
  apply keeps_bind; [apply keeps_json_load|intros d].
  apply keeps_bind; [apply keeps_set_bound|intros _].
  destruct d; [by apply keeps_put_file|repeat keeps_step].
Qed.

Lemma keeps_process_group_labelled (P : string → Prop) t1w_path sk g :
  (∀ label, label ∈ ["RL"; "LR"; "PA"; "AP"] →
            P (fmap_volume_path args g.1 label) ∧ P (fmap_sidecar_path args g.1 label)) →
  (∀ m, m ∈ g.2 → P (sidecar_path m)) →
  keeps P (process_group args w t1w_path sk g).
Proof.
  intros Hout Hmembers. unfold process_group.
  apply keeps_bind; [apply keeps_print|intros _].
  apply keeps_bind; [apply keeps_scan_pe_directions|intros scan].
  destruct (negb _); [apply keeps_print|].
  apply keeps_bind; [apply keeps_as_str|intros pe].
  apply keeps_bind; [apply keeps_print|intros _].
  destruct (g.2) as [|dwi_ref rest] eqn:Hg; [repeat keeps_step|].
  apply keeps_bind; [apply keeps_resolve_total_readout_time|intros rt].
  apply keeps_bind.
  { destruct (rt.2); [|apply keeps_ret].
    apply keeps_backfill, Hmembers, list_elem_of_here. }
  intros _. apply keeps_bind; [apply keeps_stage_and_run|intros _].
  by apply keeps_write_fmap_labelled.
Qed.

Lemma group_members_in_input (combine : bool) (l : list BIDSFile) k members m :
  (k, members) ∈ select_dwi_groups combine l → m ∈ members → m ∈ l.
Proof.
  destruct (get_dwi_images_grouped l) as [_ Hmem _ Hperm].
  unfold select_dwi_groups. destruct combine.
  - unfold combine_all. intros [= _ ->]%list_elem_of_singleton Hm. by rewrite Hperm in Hm.
  - intros Hg Hm. destruct (Hmem _ _ Hg) as [-> _].
    by apply members_with_elem in Hm as [? _].
Qed.

Lemma keeps_main : keeps (may_write args w) (main args w).
Proof.
  unfold main. apply keeps_bind.
  { destruct (filter args); [apply keeps_bids_filter|apply keeps_ret]. }
  intros _. destruct (1 <? length (t1w_files args w))%nat.
  { apply keeps_bind; [apply keeps_print|intros _]. apply keeps_raise. by intros c [= <-]. }
  destruct (t1w_files args w) as [|t1w_path ?].
  { apply keeps_bind; [apply keeps_print|intros _]. apply keeps_raise. by intros c [= <-]. }
  apply keeps_bind; [apply keeps_get_fs|intros files].
  destruct (files !! t1w_path).
  2: { apply keeps_bind; [apply keeps_print|intros _]. apply keeps_raise. by intros c [= <-]. }
  do 3 (apply keeps_bind; [apply keeps_emit|intros _]).
  apply keeps_bind; [apply keeps_resolve_brain_mask|intros sk].
  apply keeps_forM. intros [group members] Hg. apply keeps_process_group_labelled.
  - intros label Hlabel. cbn [fst].
    assert (group ∈ map fst (select_dwi_groups (combine_all_dwis args) (dwi_images w)))
      by (by apply (list_elem_of_fmap_2 fst) in Hg).
    split; left; exists group, label; auto.
  - intros m Hm. right. exists m. split; [|done].
    by eapply group_members_in_input.
Qed.

End KeepsMain.

(** X14.  Whatever the arguments, the dataset and the tools: a run changes
    no file other than the output volume and sidecar of its own groups and
    the sidecars of the DWI images, removes no file, and only adds to what it
    has printed and run. *)
Theorem X14_run_writes_only_its_outputs (args : Args) (w : World) (st : state) :
  (∀ p, ¬ may_write args w p → fs (main args w st).2 !! p = fs st !! p)
  ∧ (∀ p, is_Some (fs st !! p) → is_Some (fs (main args w st).2 !! p))
  ∧ (∃ log, out (main args w st).2 = out st ++ log).
Proof.
  destruct (keeps_main args w st) as (H1 & H2 & H3 & _). by repeat split.
Qed.

(** X15.  The only exit code the script ever chooses is 1: every other
    failure leaves as an uncaught exception. *)
Theorem X15_exit_code_is_one (args : Args) (w : World) (st : state) (code : Z) :
  (main args w st).1 = Raise (SystemExit code) → code = 1%Z.
Proof. destruct (keeps_main args w st) as (_ & _ & _ & H). apply H. Qed.

Lemma X15_exit_code_is_one_witness :
  ∃ code, Run.runB.1 = Raise (SystemExit code) ∧ code = 1%Z.
Proof.
  assert (H : Run.runB.1 = Raise (SystemExit 1)) by (vm_compute; reflexivity).
  exists 1%Z. split; [exact H|].
  exact (X15_exit_code_is_one (Run.args None) (Run.world [Run.a1; Run.b1] Run.all_produced)
           (Run.start Run.filesB) 1 H).
Defined.

(** ** The grouper in closed form *)

(** The distinct elements of a list, in order of first appearance. *)
Definition first_seen (l : list string) : list string :=
  fold_left (fun acc k => if bool_decide (k ∈ acc) then acc else acc ++ [k]) l [].

Section GrouperOrder.

Lemma first_seen_snoc (l : list string) (k : string) :
  first_seen (l ++ [k])
  = first_seen l ++ (if bool_decide (k ∈ first_seen l) then [] else [k]).
Proof.
  unfold first_seen. rewrite fold_left_app. cbn [fold_left].
  case_bool_decide; [by rewrite app_nil_r|done].
Qed.

Lemma get_dwi_images_keys (l : list BIDSFile) :
  map fst (get_dwi_images l) = first_seen (map acq_label l).
Proof.
  induction l as [|file l IH] using rev_ind; [done|].
  rewrite get_dwi_images_snoc, append_to_group_keys, map_app.
  change (map acq_label [file]) with [acq_label file].
  by rewrite first_seen_snoc, IH.
Qed.

Lemma groups_from_keys (d : groups) (members_of : string → list BIDSFile) :
  (∀ k members, (k, members) ∈ d → members = members_of k) →
  d = map (λ k, (k, members_of k)) (map fst d).
Proof.
  induction d as [|[k members] d IH]; intros Hd; [done|].
  cbn [map fst]. rewrite <- IH.
  - by rewrite <- (Hd k members) by apply list_elem_of_here.
  - intros k' m' Hin. by apply Hd, list_elem_of_further.
Qed.

End GrouperOrder.

(** X16.  The grouper in closed form: the keys are the distinct labels in
    the order in which they first appear in the input, and under each key
    stand the images with that label in input order.  With
    [--combine-all-dwis] the single group lists the images label by label in
    that same order. *)
Theorem X16_groups_in_order_of_first_appearance (dwi_images : list BIDSFile) :
  get_dwi_images dwi_images
  = map (λ k, (k, members_with k dwi_images)) (first_seen (map acq_label dwi_images))
  ∧ select_dwi_groups true dwi_images
    = [("combined",
        flat_map (λ k, members_with k dwi_images) (first_seen (map acq_label dwi_images)))].
Proof.
  assert (Hclosed : get_dwi_images dwi_images
    = map (λ k, (k, members_with k dwi_images)) (first_seen (map acq_label dwi_images))).
  { rewrite <- get_dwi_images_keys. apply groups_from_keys.
    intros k members Hin.
    by destruct (grouped_members _ _ (get_dwi_images_grouped dwi_images) _ _ Hin). }
  split; [done|]. unfold select_dwi_groups, combine_all. rewrite Hclosed.
  rewrite map_map. cbn [snd]. by rewrite flat_map_concat_map.
Qed.



(** ** The inversion and the two tables *)

Section Inversion.

Lemma drop_last_app_char (s : string) (c : ascii) :
  PyStr.drop_last (s +:+ String c "") = s.
Proof.
  induction s as [|x s IH]; [done|].
  rewrite str_cons_app. cbn [PyStr.drop_last].
  destruct (s +:+ String c "") eqn:E; [by destruct s|]. by rewrite IH.
Qed.

Lemma invert_plain (s : string) (c : ascii) :
  PyStr.last_char s = Some c → c ≠ "-"%char →
  fmap_phase_encode_dir s = Ret (s +:+ "-").
Proof.
  intros Hlast Hc. unfold fmap_phase_encode_dir. rewrite Hlast.
  by destruct (Ascii.eqb_spec c "-").
Qed.

Lemma invert_dashed (s : string) : fmap_phase_encode_dir (s +:+ "-") = Ret s.
Proof.
  unfold fmap_phase_encode_dir.
  rewrite (last_char_app s "-" ""). cbn [PyStr.last_char].
  rewrite Ascii.eqb_refl. by rewrite drop_last_app_char.
Qed.

End Inversion.

(** X18.  Beyond the four supported codes: the inversion undoes itself on
    every direction that does not end in a dash, it always strips a final
    dash, it raises IndexError on the empty string, and it is not an
    involution on a direction with two trailing dashes. *)
Theorem X18_inversion_on_any_string (s : string) (c : ascii) :
  PyStr.last_char s = Some c → c ≠ "-"%char →
  fmap_phase_encode_dir s = Ret (s +:+ "-")
  ∧ fmap_phase_encode_dir (s +:+ "-") = Ret s
  ∧ fmap_phase_encode_dir ((s +:+ "-") +:+ "-") = Ret (s +:+ "-")
  ∧ fmap_phase_encode_dir "" = Raise IndexError.
Proof.
  intros Hlast Hc. split; [by eapply invert_plain|].
  split; [apply invert_dashed|]. split; [apply invert_dashed|done].
Qed.

Lemma X18_inversion_on_any_string_witness :
  fmap_phase_encode_dir "j" = Ret "j-" ∧ fmap_phase_encode_dir "j-" = Ret "j".
Proof.
  destruct (X18_inversion_on_any_string "j" "j" eq_refl) as (H1 & H2 & _).
  - discriminate.
  - split; [exact H1|exact H2].
Defined.

(** X19.  The two tables agree with the inversion: every direction that
    has a vector has an inverse whose vector is the negated one, and every
    direction that has a label has a vector and an inverse whose label is
    the same two letters in the other order. *)
Theorem X19_tables_agree_with_inversion (pe : string) :
  (∀ vec, phase_encode_vectors !! pe = Some vec →
     ∃ inv, fmap_phase_encode_dir pe = Ret inv
            ∧ phase_encode_vectors !! inv = Some (Z.opp <$> vec))
  ∧ (∀ label, phase_encode_labels !! pe = Some label →
       is_Some (phase_encode_vectors !! pe)
       ∧ ∃ inv, fmap_phase_encode_dir pe = Ret inv
                ∧ phase_encode_labels !! inv = Some (String.rev label)).
Proof.
  split.
  - intros vec Hvec. apply elem_of_list_to_map_2 in Hvec.
    repeat (apply elem_of_cons in Hvec as [[= -> ->]|Hvec]; [by eexists|]).
    by apply elem_of_nil in Hvec.
  - intros label Hlabel. apply elem_of_list_to_map_2 in Hlabel.
    repeat (apply elem_of_cons in Hlabel as [[= -> ->]|Hlabel];
            [split; by eexists|]).
    by apply elem_of_nil in Hlabel.
Qed.

(** ** The paths listed under IntendedFor *)

Section Intended.

Lemma last_char_slash_in (s : string) :
  PyStr.last_char s = Some "/"%char → has_slash s = true.
Proof.
  unfold has_slash. induction s as [|c s IH]; [done|].
  cbn [PyStr.last_char list_ascii_of_string existsb].
  destruct s as [|c' s'].
  - intros [= ->]. done.
  - intros H. rewrite (IH H). apply orb_true_r.
Qed.

Lemma last_char_cons (c : ascii) (s : string) : PyStr.last_char (String c s) ≠ None.
Proof.
  revert c. induction s as [|c' s IH]; intros c; [done|].
  change (PyStr.last_char (String c (String c' s)))
    with (PyStr.last_char (String c' s)). apply IH.
Qed.

Lemma intended_path (session_label : string) (c : ascii) (name : string) :
  has_slash session_label = false → c ≠ "/"%char →
  PyStr.path_join ("ses-" +:+ session_label) ["dwi"; String c name]
  = "ses-" +:+ session_label +:+ "/dwi/" +:+ String c name.
Proof.
  intros Hs Hc. unfold PyStr.path_join. cbn [fold_left].
  assert (Hdwi : PyStr.last_char (("ses-" +:+ session_label) +:+ "/" +:+ "dwi")
                 = Some "i"%char)
    by exact (last_char_app ("ses-" +:+ session_label) "/" "dwi").
  rewrite (path_join2_plain ("ses-" +:+ session_label) "d" "wi"); [| | |done].
  - rewrite (path_join2_plain _ c name); [|  | |done].
    + by rewrite !str_app_assoc.
    + by rewrite Hdwi.
    + by rewrite Hdwi.
  - apply (last_char_cons "s" ("es-" +:+ session_label)).
  - intros H%last_char_slash_in. rewrite has_slash_app in H.
    by rewrite Hs in H.
Qed.

End Intended.

(** X20.  When the session label has no slash and every member's file
    name is a non-empty name that does not start with a slash, the
    IntendedFor list is ses-S/dwi/NAME for each member, one entry per
    member, in the group's order. *)
Theorem X20_intended_for_paths (session_label : string) (members : list BIDSFile) :
  has_slash session_label = false →
  Forall (λ m, ∃ c name, filename m = String c name ∧ c ≠ "/"%char) members →
  fmap_intended_files session_label members
  = map (λ m, "ses-" +:+ session_label +:+ "/dwi/" +:+ filename m) members.
Proof.
  intros Hs Hall. unfold fmap_intended_files.
  induction Hall as [|m members (c & name & Hm & Hc) _ IH]; [done|].
  cbn [map]. rewrite IH. f_equal. rewrite Hm. by apply intended_path.
Qed.

Lemma X20_intended_for_paths_witness :
  fmap_intended_files "1" [Run.a1; Run.a2]
  = ["ses-1/dwi/sub-01_ses-1_acq-dir98_run-1_dwi.nii.gz";
     "ses-1/dwi/sub-01_ses-1_acq-dir98_run-2_dwi.nii.gz"].
Proof.
  rewrite (X20_intended_for_paths "1" [Run.a1; Run.a2]).
  - reflexivity.
  - reflexivity.
  - repeat constructor; eexists _, _; (split; [reflexivity|discriminate]).
Defined.

(** ** More on the brain-mask search *)

(** A readable mask sidecar that does not select the T1w image. *)
Definition mask_passed_over (files : gmap string file) (mask_dir t1w_filename n : string)
  : Prop :=
  ∃ s, mask_source files mask_dir n = Some s ∧ PyStr.endswith s t1w_filename = false.

Section MaskSearch.

Variables (args : Args) (w : World).

Lemma find_t1w_mask_skip mask_dir t1w_filename before rest st :
  Forall (mask_passed_over (fs st) mask_dir t1w_filename) before →
  find_t1w_mask mask_dir t1w_filename (before ++ rest) st
  = find_t1w_mask mask_dir t1w_filename rest st.
Proof.
  induction 1 as [|n before (s & Hs & Hno) _ IH]; [done|].
  cbn [app find_t1w_mask].
  rewrite (bind_Ret _ _ _ _ _ (mask_matches_eq mask_dir t1w_filename n s st Hs)).
  by rewrite Hno.
Qed.

End MaskSearch.

(** X21.  The first match wins and ends the search: when the candidates
    before it are readable and do not select the T1w image, the mask of the
    first selecting candidate is returned without any later candidate being
    opened, whatever those contain. *)
Theorem X21_first_matching_mask_wins (mask_dir t1w_filename : string)
    (before : list string) (n : string) (after : list string) (s : string) (st : state) :
  Forall (mask_passed_over (fs st) mask_dir t1w_filename) before →
  mask_source (fs st) mask_dir n = Some s →
  PyStr.endswith s t1w_filename = true →
  find_t1w_mask mask_dir t1w_filename (before ++ n :: after) st
  = (Ret (Some (mask_volume mask_dir n)), st).
Proof.
  intros Hbefore Hs Hyes. rewrite find_t1w_mask_skip by done.
  cbn [find_t1w_mask].
  rewrite (bind_Ret _ _ _ _ _ (mask_matches_eq mask_dir t1w_filename n s st Hs)).
  by rewrite Hyes.
Qed.

Lemma X21_first_matching_mask_wins_witness :
  find_t1w_mask "/data/sub-01/ses-1/anat" "sub-01_ses-1_T1w.nii.gz"
    [Run.mask_name; "sub-01_ses-1_desc-other_mask.json"] (Run.start Run.filesF)
  = (Ret (Some "/data/sub-01/ses-1/anat/sub-01_ses-1_desc-brain_mask.nii.gz"),
     Run.start Run.filesF).
Proof.
  apply (X21_first_matching_mask_wins "/data/sub-01/ses-1/anat" "sub-01_ses-1_T1w.nii.gz"
           [] Run.mask_name ["sub-01_ses-1_desc-other_mask.json"]
           "bids:raw:sub-01/ses-1/anat/sub-01_ses-1_T1w.nii.gz" (Run.start Run.filesF)).
  - constructor.
  - vm_compute. reflexivity.
  - vm_compute. reflexivity.
Defined.

(** X22.  With [--t1w-mask-dataset] only that dataset is searched: the
    outcome is read off its anat directory alone, and when no sidecar there
    selects the T1w image the script reports that no mask was found without
    looking into the input dataset. *)
Theorem X22_mask_dataset_is_searched_alone (args : Args) (w : World)
    (t1w_path t1w_filename mask_dataset : string) (names : list string) (st : state) :
  t1w_mask_dataset args = Some mask_dataset →
  listdir w (anat_dir args mask_dataset) = Some names →
  Forall (λ n, is_Some (mask_source (fs st) (anat_dir args mask_dataset) n))
         (mask_candidates names) →
  resolve_brain_mask args w t1w_path t1w_filename st
  = match List.find (mask_selects (fs st) (anat_dir args mask_dataset) t1w_filename)
            (mask_candidates names) with
    | Some n =>
        (Ret (Some (skull_stripped_file w)),
         add_out st
           [Print ("Using T1w mask " +:+ mask_volume (anat_dir args mask_dataset) n);
            Subprocess ["fslmaths"; t1w_path; "-mas";
                        mask_volume (anat_dir args mask_dataset) n;
                        skull_stripped_file w]])
    | None => (Ret None, add_out st [no_mask_found args])
    end.
Proof.
  intros Hsome Hls Hwf.
  pose proof (get_t1w_skull_stripped_eq args w mask_dataset t1w_path t1w_filename
                names st Hls Hwf) as Hsearch.
  unfold resolve_brain_mask. rewrite Hsome.
  destruct (List.find _ _) as [n|].
  - by rewrite (bind_Ret _ _ _ _ _ Hsearch).
  - rewrite (bind_Ret _ _ _ _ _ Hsearch). fold (no_mask_found args).
    by erewrite bind_Ret by apply print_eq.
Qed.

Lemma X22_mask_dataset_is_searched_alone_witness :
  resolve_brain_mask
    (mkArgs "synb0.sif" "/data" "01" "1" None None false None (Some "/masks"))
    (mkWorld [Run.a1; Run.a2] [Run.t1w]
             (fun d => if String.eqb d "/masks/sub-01/ses-1/anat" then Some [] else None)
             "/scratch/bids-synb0.k3" (fun p => p) true Run.all_produced)
    Run.t1w (basename Run.t1w) (Run.start Run.filesF)
  = (Ret None,
     add_out (Run.start Run.filesF)
       [Print "No T1w brain mask found for subject 01 session 1"]).
Proof.
  rewrite (X22_mask_dataset_is_searched_alone
             (mkArgs "synb0.sif" "/data" "01" "1" None None false None (Some "/masks"))
             (mkWorld [Run.a1; Run.a2] [Run.t1w]
                (fun d => if String.eqb d "/masks/sub-01/ses-1/anat" then Some [] else None)
                "/scratch/bids-synb0.k3" (fun p => p) true Run.all_produced)
             Run.t1w (basename Run.t1w) "/masks" [] (Run.start Run.filesF)).
  - reflexivity.
  - reflexivity.
  - reflexivity.
  - constructor.
Defined.

(** X23.  The search has no tolerance for what it cannot read.  If a
    candidate reached by the search is not valid JSON, has no [Sources], or
    has an empty [Sources], the exception (JSONDecodeError, KeyError,
    IndexError) leaves [get_t1w_skull_stripped] with nothing printed or run,
    even when a later candidate would have matched. *)
Theorem X23_unreadable_mask_aborts_search (args : Args) (w : World)
    (dataset t1w_path t1w_filename : string) (names before : list string) (n : string)
    (after : list string) (e : exn) (st : state) :
  listdir w (anat_dir args dataset) = Some names →
  mask_candidates names = before ++ n :: after →
  Forall (mask_passed_over (fs st) (anat_dir args dataset) t1w_filename) before →
  match fs st !! PyStr.path_join (anat_dir args dataset) [n] with
  | Some FData => e = JSONDecodeError
  | Some (FSidecar o) =>
      match o !! "Sources" with
      | None => e = KeyError "Sources"
      | Some (JArr []) => e = IndexError
      | _ => False
      end
  | _ => False
  end →
  get_t1w_skull_stripped args w dataset t1w_path t1w_filename st = (Raise e, st).
Proof.
  intros Hls Hcand Hbefore He.
  unfold get_t1w_skull_stripped. fold (anat_dir args dataset). rewrite Hls.
  fold (mask_candidates names). rewrite Hcand.
  erewrite bind_Raise; [done|].
  rewrite find_t1w_mask_skip by done. cbn [find_t1w_mask].
  erewrite bind_Raise; [done|].
  unfold mask_matches, json_load, bind, get_fs.
  destruct (fs st !! PyStr.path_join (anat_dir args dataset) [n]) as [[o| |]|];
    try done; [|by subst e].
  destruct (o !! "Sources") as [[| | | |[|]|]|] eqn:Ho; try done.
  all: subst e; unfold ret, getitem; rewrite Ho; reflexivity.
Qed.

Lemma X23_unreadable_mask_aborts_search_witness :
  get_t1w_skull_stripped (Run.args None) Run.worldF "/data" Run.t1w (basename Run.t1w)
    (Run.start (<["/data/sub-01/ses-1/anat/" +:+ Run.mask_name := FSidecar ∅]> Run.filesF))
  = (Raise (KeyError "Sources"),
     Run.start (<["/data/sub-01/ses-1/anat/" +:+ Run.mask_name := FSidecar ∅]> Run.filesF)).
Proof.
  apply (X23_unreadable_mask_aborts_search (Run.args None) Run.worldF "/data" Run.t1w
           (basename Run.t1w)
           ["sub-01_ses-1_T1w.json"; Run.mask_name; "sub-01_ses-1_T1w.nii.gz"]
           [] Run.mask_name []).
  - vm_compute. reflexivity.
  - vm_compute. reflexivity.
  - constructor.
  - vm_compute. reflexivity.
Defined.

(** ** Members that declare a null direction *)

Definition checking (dwi_image : BIDSFile) : event :=
  Print ("Checking phase encoding direction for " +:+ filename dwi_image).

Section NullDirections.

Lemma check_from_none (dwi_image : BIDSFile) v ok st :
  pe_of (fs st) dwi_image = Some v →
  check_pe_direction dwi_image (JNull, ok) st = (Ret (v, ok), add_out st [checking dwi_image]).
Proof.
  unfold pe_of. intros H.
  destruct (fs st !! sidecar_path dwi_image) as [[o| |]|] eqn:E; try done.
  unfold check_pe_direction.
  rewrite (bind_Ret _ _ _ _ _ (print_eq _ _)).
  rewrite (bind_Ret _ _ _ (LObj o) (add_out st [Print _])) by by apply json_load_sidecar.
  cbn [fst snd]. unfold bind, getitem. by rewrite H.
Qed.

Lemma scan_nulls (nulls : list BIDSFile) st :
  Forall (λ m, pe_of (fs st) m = Some JNull) nulls →
  foldM check_pe_direction nulls (JNull, true) st
  = (Ret (JNull, true), add_out st (map checking nulls)).
Proof.
  revert st. induction nulls as [|m nulls IH]; intros st Hall.
  - by rewrite add_out_nil.
  - apply Forall_cons in Hall as [Hm Hall]. cbn [foldM map].
    rewrite (bind_Ret _ _ _ _ _ (check_from_none m JNull true st Hm)).
    rewrite IH by done. by rewrite add_out_add_out.
Qed.

Lemma checking_prints (l : list BIDSFile) : forallb is_print (map checking l) = true.
Proof. by induction l. Qed.

End NullDirections.

(** X24.  A member whose PhaseEncodingDirection is JSON null is passed
    over: the group's direction is that of the first member that declares
    one, and only the members after that one are compared with it.  A group
    in which every member declares null ends the run with TypeError when
    its direction is printed. *)
Theorem X24_null_directions_are_passed_over (args : Args) (w : World) (t1w_path : string)
    (t1w_skull_stripped_path : option string) (group : string)
    (nulls : list BIDSFile) (st : state) :
  Forall (λ m, pe_of (fs st) m = Some JNull) nulls →
  process_group args w t1w_path t1w_skull_stripped_path (group, nulls) st
  = (Raise TypeError,
     add_out st (Print ("Running synb0 on group " +:+ group) :: map checking nulls))
  ∧ (∀ dwi_ref rest pe,
       pe_of (fs st) dwi_ref = Some (JStr pe) →
       Forall (λ m, is_Some (pe_of (fs st) m)) rest →
       scan_pe_directions (nulls ++ dwi_ref :: rest) st
       = (Ret (JStr pe, forallb (pe_matches (fs st) pe) rest),
          add_out st (map checking nulls ++ scan_log (fs st) pe dwi_ref rest))).
Proof.
  intros Hnulls. split.
  - unfold process_group. cbn [fst snd].
    erewrite bind_Ret by apply print_eq.
    unfold scan_pe_directions.
    erewrite bind_Ret by (by apply scan_nulls).
    cbn [fst snd negb]. unfold bind, as_str, raise. by rewrite add_out_add_out.
  - intros dwi_ref rest pe Href Hrest. unfold scan_pe_directions.
    rewrite foldM_app. rewrite (bind_Ret _ _ _ _ _ (scan_nulls nulls st Hnulls)).
    pose proof (scan_pe_directions_eq dwi_ref rest pe (add_out st (map checking nulls))
                  Href Hrest) as Hscan.
    unfold scan_pe_directions in Hscan. rewrite Hscan.
    by rewrite fs_add_out, add_out_add_out.
Qed.

Lemma X24_null_directions_are_passed_over_witness :
  ∃ ok st',
    scan_pe_directions [Run.b1; Run.a1; Run.a2]
      (Run.start (<[sidecar_path Run.b1 := FSidecar (<["PhaseEncodingDirection" := JNull]> ∅)]>
                    Run.filesA))
    = (Ret (JStr "j", ok), st').
Proof.
  destruct (X24_null_directions_are_passed_over
              (Run.args None) (Run.world [Run.a1] Run.all_produced) Run.t1w None "dir98"
              [Run.b1]
              (Run.start
                 (<[sidecar_path Run.b1 := FSidecar (<["PhaseEncodingDirection" := JNull]> ∅)]>
                    Run.filesA)))
    as [_ H].
  - repeat constructor.
  - eexists _, _. apply (H Run.a1 [Run.a2] "j").
    + vm_compute. reflexivity.
    + repeat constructor. vm_compute. eexists. reflexivity.
Defined.

(** ** The staged T1w image and the [--stripped] flag *)

(** X25.  What is staged as T1.nii.gz and what the container is told
    always agree: when staging succeeds, either the skull-stripped image is
    copied and the command ends in [--stripped], or the original T1w image
    is copied and the command ends in [--notopup]; in both cases the
    parameter file carries the vector of the group's own direction and the
    resolved readout time, and the dataset is not touched. *)
Theorem X25_staged_t1_matches_stripped_flag (args : Args) (w : World) (t1w_path : string)
    (t1w_skull_stripped_path : option string) (group : string) (dwi_ref : BIDSFile)
    (pe : string) (vec : list Z) (readout : json) (st : state) :
  produced w (b0_input w group) = true →
  t1_available w (fs st) t1w_path t1w_skull_stripped_path →
  phase_encode_vectors !! pe = Some vec →
  singularity_found w = true →
  ∃ src cmd before between,
    stage_and_run args w group dwi_ref pe readout t1w_path t1w_skull_stripped_path st
    = (Ret tt,
       add_out st (before
                   ++ [StageCopy src (PyStr.path_join (tmp_input_dir w group) ["T1.nii.gz"]);
                       acqparams_write w group vec readout]
                   ++ between ++ [Subprocess cmd]))
    ∧ synthesis_invoked (before ++ between) = false
    ∧ match t1w_skull_stripped_path with
      | Some p => src = p ∧ last cmd = Some "--stripped"
      | None => src = t1w_path ∧ last cmd = Some "--notopup"
      end.
Proof.
  intros Hb0 Ht1 Hvec Hsing.
  exists (t1_source t1w_path t1w_skull_stripped_path),
         (synb0_cmd_list args w group (bool_decide (is_Some t1w_skull_stripped_path))),
         [MakeDirs (tmp_input_dir w group); MakeDirs (tmp_output_dir w group);
          MakeDirs (tmp_singularity_dir w group); fslroi_call w group dwi_ref],
         [Print ("---synb0 call---" +:+ newline
                 +:+ str_join " " (synb0_cmd_list args w group
                                     (bool_decide (is_Some t1w_skull_stripped_path)))
                 +:+ newline +:+ "---")].
  split; [by apply stage_and_run_ok|]. split; [done|].
  destruct t1w_skull_stripped_path as [p|]; by split.
Qed.

Lemma X25_staged_t1_matches_stripped_flag_witness :
  ∃ st',
    stage_and_run (Run.args None) (Run.world [Run.a1] Run.all_produced) "dir98" Run.a1 "j"
      (JNum (5 # 100)) Run.t1w (Some "/scratch/bids-synb0.k3/t1w_skull_stripped.nii.gz")
      (Run.start (Cases.files_with "j"))
    = (Ret tt, st').
Proof.
  destruct (X25_staged_t1_matches_stripped_flag
              (Run.args None) (Run.world [Run.a1] Run.all_produced) Run.t1w
              (Some "/scratch/bids-synb0.k3/t1w_skull_stripped.nii.gz") "dir98" Run.a1 "j"
              [0; 1; 0]%Z (JNum (5 # 100)) (Run.start (Cases.files_with "j")))
    as (src & cmd & before & between & Hrun & _).
  - reflexivity.
  - reflexivity.
  - reflexivity.
  - reflexivity.
  - eexists. exact Hrun.
Defined.
